(** * Verification of the code-deployment service (app.py)

    A shallow embedding of the two request handlers [deploy_code] (the
    Execute operation) and [deploy_to_github] (the Publish operation) of
    [app.py], and the properties of their specification.

    - Text is a [string]: a sequence of bytes, UTF-8 for the few non-ASCII
      log markers.  The string methods the handlers call are in [PyStr].
    - Every filesystem call and every subprocess of a handler is an entry of
      an effect trace, in order of occurrence.  What the host answers to a
      call is read from an environment record, so that a theorem quantified
      over environments holds whatever the host does.
    - A handler is a computation in a small monad of state (the local
      [deployment_log] and the trace), exceptions and early [return].

    The definitions come first: the model of the source, then the notions
    used to state the properties and the sample hosts.  The properties
    follow: strings, frames of the stages, the Execute operation, the Push
    step and manual mode, the materialization and the classifier, the page
    URL, the missing remote, and the scenarios of the specification. *)

From Stdlib Require Import List ZArith Bool Lia Ascii String DecimalString.
Import ListNotations.
Open Scope string_scope.

(** ** The string methods of Python used by the handlers *)

Module PyStr.

(** [s.startswith(p)] *)
Fixpoint startswith (s p : string) {struct p} : bool :=
  match p with
  | EmptyString => true
  | String a p' =>
      match s with
      | EmptyString => false
      | String b s' => Ascii.eqb a b && startswith s' p'
      end
  end.

(** [sub in s] *)
Fixpoint contains (sub s : string) : bool :=
  startswith s sub ||
  match s with
  | EmptyString => false
  | String _ s' => contains sub s'
  end.

(** [s.lower()].  The letters [A]..[Z] are mapped to [a]..[z]; every other
    byte is kept.  All the markers the handlers look for are ASCII and
    none of them holds a letter that a non-ASCII character lowers to. *)
Definition lower_char (c : ascii) : ascii :=
  let n := nat_of_ascii c in
  if (65 <=? n)%nat && (n <=? 90)%nat then ascii_of_nat (n + 32) else c.

Fixpoint lower (s : string) : string :=
  match s with
  | EmptyString => EmptyString
  | String c s' => String (lower_char c) (lower s')
  end.

(** ASCII white space, as [str.isspace] has it: TAB, LF, VT, FF, CR,
    FS, GS, RS, US and the space. *)
Definition isspace (c : ascii) : bool :=
  let n := nat_of_ascii c in
  ((9 <=? n)%nat && (n <=? 13)%nat) || ((28 <=? n)%nat && (n <=? 32)%nat).

Fixpoint lstrip (s : string) : string :=
  match s with
  | EmptyString => EmptyString
  | String c s' => if isspace c then lstrip s' else s
  end.

Fixpoint rstrip (s : string) : string :=
  match s with
  | EmptyString => EmptyString
  | String c s' =>
      match rstrip s' with
      | EmptyString => if isspace c then EmptyString else String c EmptyString
      | r => String c r
      end
  end.

(** [s.strip()], on a text of ASCII characters.  On other texts Python also
    removes the non-ASCII white space (U+00A0, U+2028 and the like), which
    is kept here. *)
Definition strip (s : string) : string := rstrip (lstrip s).

(** [s.replace(old, new)] for a non-empty [old]: the occurrences of [old]
    are found from left to right, without overlap, and the result is not
    scanned again.  [skip] counts the characters of a match still to be
    passed over. *)
Fixpoint replace_from (old new : string) (skip : nat) (s : string) : string :=
  match s with
  | EmptyString => EmptyString
  | String c s' =>
      match skip with
      | S k => replace_from old new k s'
      | O =>
          if startswith s old
          then new ++ replace_from old new (String.length old - 1) s'
          else String c (replace_from old new 0 s')
      end
  end.

(** For the empty [old] Python puts [new] before every character and at
    the end. *)
Fixpoint intersperse (new s : string) : string :=
  match s with
  | EmptyString => new
  | String c s' => new ++ String c (intersperse new s')
  end.

Definition replace (s old new : string) : string :=
  match old with
  | EmptyString => intersperse new s
  | _ => replace_from old new 0 s
  end.

(** [s.split(sep)] for a non-empty [sep] (Python raises [ValueError] for
    the empty one; the handlers split on ["/"] and [":"] only).  The
    result always has at least one element. *)
Fixpoint split_from (sep : string) (skip : nat) (s : string) : list string :=
  match s with
  | EmptyString => [EmptyString]
  | String c s' =>
      match skip with
      | S k => split_from sep k s'
      | O =>
          if startswith s sep
          then EmptyString :: split_from sep (String.length sep - 1) s'
          else
            match split_from sep 0 s' with
            | h :: t => String c h :: t
            | [] => [String c EmptyString]
            end
      end
  end.

Definition split (s sep : string) : list string := split_from sep 0 s.

(** [l[-k]] for [k >= 1]; [None] stands for Python's [IndexError]. *)
Definition getitem_neg {A : Type} (l : list A) (k : nat) : option A :=
  match k with
  | O => None
  | S k' => nth_error (rev l) k'
  end.

(** Truth value of a string: [if s:] *)
Definition truthy (s : string) : bool :=
  match s with
  | EmptyString => false
  | _ => true
  end.

End PyStr.

(** ** Effects, exceptions and the handler monad *)

(** What a handler does to the outside world.  [RemoveFile] is the one
    effect the handlers never perform: the call [os.remove(GENERATED_FILE)]
    is commented out in [deploy_code]. *)
Inductive action : Type :=
| MkDir (path : string)
| WriteFile (path content : string)
| RemoveFile (path : string)
| Exec (argv : list string).

(** The exceptions the handlers tell apart. *)
Inductive exn : Type :=
| TimeoutExpired (cmd : list string) (timeout : option Z)
| CalledProcessError (cmd : list string) (returncode : Z) (err : string)
| FileNotFoundError (msg : string)
| OtherException (msg : string).

(** [subprocess.CompletedProcess] *)
Record CompletedProcess : Type := mkCompleted {
  returncode : Z;
  stdout : string;
  stderr : string
}.

(** The answer of the host to a filesystem call. *)
Inductive file_outcome : Type :=
| Written
| OSError (msg : string).

(** The answer of the host to [subprocess.run]: the process ran to its end,
    the timeout expired, the executable was not found, or the call raised
    some other exception.  A call that never comes back has no answer
    here. *)
Inductive run_outcome : Type :=
| Completed (p : CompletedProcess)
| Expired
| NotFound (msg : string)
| LaunchError (msg : string).

Definition nl : string := String "010" EmptyString.
Definition dq : string := String "034" EmptyString.
Definition sq : string := "'".

(** [sep.join(l)] *)
Fixpoint join (sep : string) (l : list string) : string :=
  match l with
  | [] => EmptyString
  | [x] => x
  | x :: l' => x ++ sep ++ join sep l'
  end.

Definition Z_to_string (z : Z) : string :=
  DecimalString.NilZero.string_of_int (Z.to_int z).

(** [repr] of a list of plain strings, as in ['git', 'init']. *)
Definition repr_list (l : list string) : string :=
  "[" ++ join ", " (map (fun s => sq ++ s ++ sq) l) ++ "]".

(** [str(e)].  For [CalledProcessError] this is the wording of a positive
    exit status (a process killed by a signal is worded differently; no
    handler looks inside the text). *)
Definition str_exn (e : exn) : string :=
  match e with
  | TimeoutExpired cmd timeout =>
      "Command '" ++ repr_list cmd ++ "' timed out after "
        ++ match timeout with Some t => Z_to_string t | None => "None" end
        ++ " seconds"
  | CalledProcessError cmd rc _ =>
      "Command '" ++ repr_list cmd ++ "' returned non-zero exit status "
        ++ Z_to_string rc ++ "."
  | FileNotFoundError msg => msg
  | OtherException msg => msg
  end.

(** The state a handler threads: its local [deployment_log] and the trace
    of the effects performed so far, both in order of occurrence. *)
Record state : Type := mkState {
  deployment_log : list string;
  trace : list action
}.

Definition initial_state : state := mkState [] [].

(** A statement either goes on with a value, raises, or returns from the
    handler with the response [r]. *)
Inductive outcome (R A : Type) : Type :=
| Value (a : A)
| Raise (e : exn)
| Return (r : R).

Arguments Value {R A} a.
Arguments Raise {R A} e.
Arguments Return {R A} r.

Definition M (R A : Type) : Type := state -> outcome R A * state.

Definition ret {R A : Type} (a : A) : M R A := fun st => (Value a, st).

Definition bind {R A B : Type} (m : M R A) (k : A -> M R B) : M R B :=
  fun st =>
    match m st with
    | (Value a, st') => k a st'
    | (Raise e, st') => (Raise e, st')
    | (Return r, st') => (Return r, st')
    end.

Definition raise {R A : Type} (e : exn) : M R A := fun st => (Raise e, st).

Definition return_ {R A : Type} (r : R) : M R A := fun st => (Return r, st).

(** [try: m except Exception as e: h e] *)
Definition try_except {R A : Type} (m : M R A) (h : exn -> M R A) : M R A :=
  fun st =>
    match m st with
    | (Raise e, st') => h e st'
    | res => res
    end.

Declare Scope handler_scope.
Delimit Scope handler_scope with handler.
Notation "x <- m ;; k" := (bind m (fun x => k))
  (at level 61, m at next level, right associativity) : handler_scope.
Notation "m ;; k" := (bind m (fun _ => k))
  (at level 61, right associativity) : handler_scope.
Open Scope handler_scope.

(** [deployment_log.append(entry)] *)
Definition log_append {R : Type} (entry : string) : M R unit :=
  fun st => (Value tt, mkState (deployment_log st ++ [entry]) (trace st)).

(** Reading the local [deployment_log]. *)
Definition get_log {R : Type} : M R (list string) :=
  fun st => (Value (deployment_log st), st).

Definition perform {R : Type} (a : action) : M R unit :=
  fun st => (Value tt, mkState (deployment_log st) (trace st ++ [a])).

(** A filesystem call: it is attempted, and the host answers. *)
Definition file_op {R : Type} (a : action) (o : file_outcome) : M R unit :=
  perform a ;;
  match o with
  | Written => ret tt
  | OSError msg => raise (OtherException msg)
  end.

(** [subprocess.run(argv, check=check, timeout=timeout, ...)].  The call is
    taken to come back: a call without timeout that the host never answers
    has no outcome here, and an answer [Expired] to such a call is raised
    all the same. *)
Definition subprocess_run {R : Type} (argv : list string) (check : bool)
    (timeout : option Z) (o : run_outcome) : M R CompletedProcess :=
  perform (Exec argv) ;;
  match o with
  | Completed p =>
      if check && negb (returncode p =? 0)%Z
      then raise (CalledProcessError argv (returncode p) (stderr p))
      else ret p
  | Expired => raise (TimeoutExpired argv timeout)
  | NotFound msg => raise (FileNotFoundError msg)
  | LaunchError msg => raise (OtherException msg)
  end.

(** [l[-k]] inside a handler. *)
Definition getitem {R A : Type} (l : list A) (k : nat) : M R A :=
  match PyStr.getitem_neg l k with
  | Some a => ret a
  | None => raise (OtherException "list index out of range")
  end.

(** The JSON body of a request: [request.json], read with
    [data.get('code', '')] and [data.get('auto_push', True)].  The body is a
    JSON object, or [None] for a body that is a falsy JSON value ([null],
    the empty object); a field that is [None] is a missing key.  The code
    is taken to be a string, and [auto_push] to be the truth value of
    whatever was sent.  A request without a JSON body is refused by
    [request.json] before the handler reads it, and [data.get] raises,
    outside the [try], on a body that is a non-empty list, a number or a
    string: neither has a value here. *)
Record RequestData : Type := mkRequest {
  data_code : option string;
  data_auto_push : option bool
}.

Definition request_code (data : option RequestData) : string :=
  match data with
  | Some d => match data_code d with Some c => c | None => EmptyString end
  | None => EmptyString
  end.

Definition request_auto_push (data : option RequestData) : bool :=
  match data with
  | Some d => match data_auto_push d with Some b => b | None => true end
  | None => true
  end.

(** What a handler run leaves: the response it returned (none if an
    exception escaped or the body ended without [return]), and the final
    state. *)
Definition response_of {R A : Type} (res : outcome R A * state) : option R :=
  match fst res with
  | Return r => Some r
  | Value _ => None
  | Raise _ => None
  end.

Definition trace_of {R A : Type} (res : outcome R A * state) : list action :=
  trace (snd res).

Definition log_of {R A : Type} (res : outcome R A * state) : list string :=
  deployment_log (snd res).

(** ** The handlers of app.py *)

Definition GENERATED_FILE : string := "generated_code.py".
Definition GITHUB_PAGES_DIR : string := "docs".

(** [Path(dir) / name], rendered with the POSIX separator. *)
Definition path_join (dir name : string) : string := dir ++ "/" ++ name.

(** *** [deploy_code]: the Execute operation *)

(** The host as [deploy_code] meets it. *)
Record ExecEnv : Type := mkExecEnv {
  save_generated : file_outcome;
  run_generated : run_outcome
}.

(** Lines 82-113 of app.py, for a non-empty [code]. *)
Definition deploy_code_body (env : ExecEnv) (code : string) : M string unit :=
  try_except
    (file_op (WriteFile GENERATED_FILE code) (save_generated env))
    (fun e => return_ ("Error saving file: " ++ str_exn e)) ;;
  output <-
    try_except
      (result <- subprocess_run ["python"; GENERATED_FILE] true (Some 10%Z) (run_generated env) ;;
       ret ("Execution Successful:" ++ nl ++ nl ++ stdout result))
      (fun e =>
         match e with
         | CalledProcessError _ _ err =>
             ret ("Execution Failed (Runtime Error):" ++ nl ++ nl ++ err)
         | TimeoutExpired _ _ =>
             ret "Execution Failed (Timeout): The code took too long to run."
         | FileNotFoundError _ =>
             ret "Execution Failed: Python interpreter not found."
         | OtherException _ =>
             ret ("An unexpected error occurred during execution: " ++ str_exn e)
         end) ;;
  return_ output.

(** The route [/deploy_code]; the response is the [output] field. *)
Definition deploy_code (env : ExecEnv) (data : option RequestData)
    : outcome string unit * state :=
  let code := request_code data in
  if negb (PyStr.truthy code)
  then return_ "Error: No code provided for execution." initial_state
  else deploy_code_body env code initial_state.

(** *** [deploy_to_github]: the Publish operation *)

Record DeploymentResult : Type := mkResult {
  status : string;
  message : string;
  log : option (list string);
  instructions : option string;
  error : option string
}.

(** The host as [deploy_to_github] meets it, one answer per call site, in
    the order of the source. *)
Record DeployEnv : Type := mkDeployEnv {
  mkdir_docs : file_outcome;
  write_code : file_outcome;
  run_code : run_outcome;
  write_index : file_outcome;
  write_readme : file_outcome;
  git_rev_parse : run_outcome;
  git_init : run_outcome;
  git_remote_check : run_outcome;
  git_add : run_outcome;
  git_commit : run_outcome;
  git_push : run_outcome;
  git_remote_result : run_outcome
}.

(** The test of line 152. *)
Definition looks_like_html (output : string) : bool :=
  PyStr.contains "<html" (PyStr.lower output) ||
  PyStr.contains "<!doctype" (PyStr.lower output).

(** The wrapper document of lines 160-179, before and after [{output}]. *)
Definition html_head : string :=
  join nl [
    "<!DOCTYPE html>";
    "<html lang=" ++ dq ++ "en" ++ dq ++ ">";
    "<head>";
    "    <meta charset=" ++ dq ++ "UTF-8" ++ dq ++ ">";
    "    <meta name=" ++ dq ++ "viewport" ++ dq ++ " content=" ++ dq ++ "width=device-width, initial-scale=1.0" ++ dq ++ ">";
    "    <title>Generated Output</title>";
    "    <script src=" ++ dq ++ "https://cdn.tailwindcss.com" ++ dq ++ "></script>";
    "</head>";
    "<body class=" ++ dq ++ "bg-gray-900 text-white min-h-screen p-8" ++ dq ++ ">";
    "    <div class=" ++ dq ++ "max-w-4xl mx-auto" ++ dq ++ ">";
    "        <h1 class=" ++ dq ++ "text-4xl font-bold mb-6 text-blue-400" ++ dq ++ ">Generated Output</h1>";
    "        <div class=" ++ dq ++ "bg-gray-800 rounded-lg p-6 shadow-xl" ++ dq ++ ">";
    "            <pre class=" ++ dq ++ "whitespace-pre-wrap font-mono text-green-400" ++ dq ++ ">"
  ].

Definition html_tail : string :=
  join nl [
    "</pre>";
    "        </div>";
    "        <footer class=" ++ dq ++ "mt-8 text-center text-gray-400" ++ dq ++ ">";
    "            <p>Generated by LLM Code Deployment Tool</p>";
    "        </footer>";
    "    </div>";
    "</body>";
    "</html>"
  ].

Definition html_content (output : string) : string :=
  html_head ++ output ++ html_tail.

(** The text of lines 189-200. *)
Definition readme_content : string :=
  join nl [
    "# Generated Code Output";
    "";
    "This page was automatically generated and deployed by the LLM Code Deployment Tool.";
    "";
    "## Auto-Deployment";
    "";
    "This project uses automated GitHub Pages deployment.";
    "";
    "## Source Code";
    "";
    "The Python code that generated this output is available in `generated_code.py`.";
    ""
  ].

(** The instructions of lines 233-239. *)
Definition remote_instructions : string :=
  join nl [
    "";
    "⚠️ Git remote not configured!";
    "";
    "Please run these commands:";
    "1. git remote add origin https://github.com/[username]/[repo-name].git";
    "2. Then try deploying again for automatic push";
    ""
  ].

(** The instructions of lines 329-334. *)
Definition manual_instructions : string :=
  join nl [
    "";
    "Manual deployment steps:";
    "1. git add docs/";
    "2. git commit -m " ++ dq ++ "Deploy to GitHub Pages" ++ dq;
    "3. git push origin main";
    ""
  ].

Definition code_file : string := path_join GITHUB_PAGES_DIR "generated_code.py".
Definition index_file : string := path_join GITHUB_PAGES_DIR "index.html".
Definition readme_file : string := path_join GITHUB_PAGES_DIR "README.md".

Definition cmd_python : list string := ["python"; code_file].
Definition cmd_rev_parse : list string := ["git"; "rev-parse"; "--git-dir"].
Definition cmd_init : list string := ["git"; "init"].
Definition cmd_remote : list string := ["git"; "remote"; "get-url"; "origin"].
Definition cmd_add : list string := ["git"; "add"; "docs/"].
Definition cmd_commit : list string :=
  ["git"; "commit"; "-m"; "Auto-deploy: Generated code to GitHub Pages"].
Definition cmd_push : list string := ["git"; "push"; "origin"; "main"].

(** [output = result.stdout if result.stdout else result.stderr] *)
Definition chosen_output (result : CompletedProcess) : string :=
  if PyStr.truthy (stdout result) then stdout result else stderr result.

(** The document written to [index.html] (lines 152-183). *)
Definition entry_document (output : string) : string :=
  if looks_like_html output then output else html_content output.

(** Lines 129-201: the publish directory, the source file, the run of the
    code, the entry point and the README. *)
Definition materialize (env : DeployEnv) (code : string) : M DeploymentResult unit :=
  file_op (MkDir GITHUB_PAGES_DIR) (mkdir_docs env) ;;
  log_append "✅ Created /docs directory" ;;
  file_op (WriteFile code_file code) (write_code env) ;;
  log_append "✅ Saved Python code" ;;
  result <- subprocess_run cmd_python false (Some 10%Z) (run_code env) ;;
  let output := chosen_output result in
  (if looks_like_html output
   then
     file_op (WriteFile index_file output) (write_index env) ;;
     log_append "✅ Generated HTML page"
   else
     file_op (WriteFile index_file (html_content output)) (write_index env) ;;
     log_append "✅ Created HTML wrapper") ;;
  file_op (WriteFile readme_file readme_content) (write_readme env) ;;
  log_append "✅ Created README.md".

(** Lines 292-300: the page URL recovered from the remote URL. *)
Definition announce_pages_url (remote_url : string) : M DeploymentResult unit :=
  if PyStr.contains "github.com" remote_url
  then
    let parts := PyStr.split (PyStr.replace remote_url ".git" "") "/" in
    if (2 <=? List.length parts)%nat
    then
      owner_part <- getitem parts 2 ;;
      username <- getitem (PyStr.split owner_part ":") 1 ;;
      repo <- getitem parts 1 ;;
      let pages_url := "https://" ++ username ++ ".github.io/" ++ repo ++ "/" in
      log_append (nl ++ "🌐 Your site will be live at:" ++ nl ++ "   " ++ pages_url) ;;
      log_append (nl ++ "⚠️ Note: First deployment may take 1-2 minutes") ;;
      log_append "⚠️ Make sure GitHub Pages is enabled in repo settings!"
    else ret tt
  else ret tt.

(** Lines 207-240, the states CheckRepo, InitRepo and CheckRemote: the
    repository is initialized when [git rev-parse] fails, and the remote is
    queried only then. *)
Definition ensure_repository (env : DeployEnv) : M DeploymentResult unit :=
  git_check <- subprocess_run cmd_rev_parse false None (git_rev_parse env) ;;
  if negb (returncode git_check =? 0)%Z
  then
    subprocess_run cmd_init true None (git_init env) ;;
    log_append "✅ Initialized Git repository" ;;
    remote_check <- subprocess_run cmd_remote false None (git_remote_check env) ;;
    if negb (returncode remote_check =? 0)%Z
    then
      l <- get_log ;;
      return_ (mkResult "partial" "Files created but Git remote not configured"
                 (Some l) (Some remote_instructions) None)
    else ret tt
  else ret tt.

(** Lines 242-266, the states StageFiles and Commit. *)
Definition stage_and_commit (env : DeployEnv) : M DeploymentResult unit :=
  subprocess_run cmd_add false None (git_add env) ;;
  log_append "✅ Added files to Git" ;;
  commit_result <- subprocess_run cmd_commit false None (git_commit env) ;;
  if (returncode commit_result =? 0)%Z
  then log_append "✅ Committed changes"
  else
    if PyStr.contains "nothing to commit" (PyStr.lower (stdout commit_result))
    then log_append "ℹ️ No changes to commit"
    else log_append ("⚠️ Commit warning: " ++ stderr commit_result).

(** Lines 268-322, the state Push. *)
Definition push_and_report (env : DeployEnv) : M DeploymentResult unit :=
  push_result <- subprocess_run cmd_push false (Some 30%Z) (git_push env) ;;
  if (returncode push_result =? 0)%Z
  then
    log_append "✅ Pushed to GitHub successfully!" ;;
    log_append (nl ++ "🎉 DEPLOYMENT COMPLETE!") ;;
    remote_result <- subprocess_run cmd_remote false None (git_remote_result env) ;;
    (if (returncode remote_result =? 0)%Z
     then announce_pages_url (PyStr.strip (stdout remote_result))
     else ret tt) ;;
    l <- get_log ;;
    return_ (mkResult "success" "Automatically deployed to GitHub Pages!"
               (Some l) None None)
  else
    let error_msg := stderr push_result in
    log_append ("❌ Push failed: " ++ error_msg) ;;
    (if PyStr.contains "rejected" (PyStr.lower error_msg)
     then log_append (nl ++ "💡 Tip: Try running 'git pull origin main' first")
     else
       if PyStr.contains "could not read" (PyStr.lower error_msg)
          || PyStr.contains "authentication" (PyStr.lower error_msg)
       then log_append (nl ++ "💡 Tip: Check your Git credentials or use SSH keys")
       else ret tt) ;;
    l <- get_log ;;
    return_ (mkResult "partial" "Files created and committed, but push failed"
               (Some l) None (Some error_msg)).

(** Lines 205-322: the automated git operations. *)
Definition publish (env : DeployEnv) : M DeploymentResult unit :=
  log_append (nl ++ "🔄 Starting automated Git deployment...") ;;
  ensure_repository env ;;
  stage_and_commit env ;;
  push_and_report env.

(** Lines 128-335: the body of the [try]. *)
Definition deploy_body (env : DeployEnv) (code : string) (auto_push : bool)
    : M DeploymentResult unit :=
  materialize env code ;;
  if auto_push
  then publish env
  else
    l <- get_log ;;
    return_ (mkResult "success" "Files created successfully"
               (Some l) (Some manual_instructions) None).

(** Lines 337-350: the two [except] clauses. *)
Definition deploy_except (e : exn) : M DeploymentResult unit :=
  match e with
  | TimeoutExpired _ _ =>
      log_append "❌ Operation timed out" ;;
      l <- get_log ;;
      return_ (mkResult "error" "Deployment timed out" (Some l) None None)
  | _ =>
      log_append ("❌ Error: " ++ str_exn e) ;;
      l <- get_log ;;
      return_ (mkResult "error" ("Deployment failed: " ++ str_exn e)
                 (Some l) None None)
  end.

(** [try: m] under the two [except] clauses of the handler. *)
Definition guarded (m : M DeploymentResult unit) : M DeploymentResult unit :=
  try_except m deploy_except.

(** The route [/deploy_to_github]. *)
Definition deploy_to_github (env : DeployEnv) (data : option RequestData)
    : outcome DeploymentResult unit * state :=
  let code := request_code data in
  let auto_push := request_auto_push data in
  if negb (PyStr.truthy code)
  then
    return_ (mkResult "error" "No code provided for deployment." None None None)
      initial_state
  else guarded (deploy_body env code auto_push) initial_state.

(** The wording of the specification for "contains the marker, compared
    case-insensitively": some piece of the text equals the marker once both
    are lowered. *)
Definition contains_ci (marker text : string) : Prop :=
  exists pre mid post,
    text = pre ++ mid ++ post /\ PyStr.lower mid = PyStr.lower marker.



(** The entries of [log], none when the response has no [log] field. *)
Definition log_entries (r : DeploymentResult) : list string :=
  match log r with
  | Some l => l
  | None => []
  end.

(** How many of the four families of fixed prefixes of the Execute
    operation a string starts with. *)
Definition fixed_prefix_count (out : string) : nat :=
  List.length
    (filter (fun b : bool => b)
       [ PyStr.startswith out "Execution Successful:";
         PyStr.startswith out "Execution Failed (Runtime Error):";
         PyStr.startswith out "Execution Failed (Timeout):";
         PyStr.startswith out "Execution Failed:"
           || PyStr.startswith out "An unexpected error" ]).

(** The two remediation tips of lines 313 and 315. *)
Definition pull_tip : string :=
  nl ++ "💡 Tip: Try running 'git pull origin main' first".

Definition credentials_tip : string :=
  nl ++ "💡 Tip: Check your Git credentials or use SSH keys".

(** The log entry of line 298 for a page URL. *)
Definition site_entry (pages_url : string) : string :=
  nl ++ "🌐 Your site will be live at:" ++ nl ++ "   " ++ pages_url.

(** The host let the whole materialization through. *)
Definition materialized (env : DeployEnv) : Prop :=
  mkdir_docs env = Written /\
  write_code env = Written /\
  (exists p, run_code env = Completed p) /\
  write_index env = Written /\
  write_readme env = Written.

(** One of the three writes is reached and refused by the host: the write
    to [path] fails with the message [msg]. *)
Inductive failed_write (env : DeployEnv) : string -> string -> Prop :=
| failed_code_write msg :
    write_code env = OSError msg ->
    failed_write env code_file msg
| failed_index_write p msg :
    write_code env = Written ->
    run_code env = Completed p ->
    write_index env = OSError msg ->
    failed_write env index_file msg
| failed_readme_write p msg :
    write_code env = Written ->
    run_code env = Completed p ->
    write_index env = Written ->
    write_readme env = OSError msg ->
    failed_write env readme_file msg.

(** *** Sample hosts and requests *)

Definition exited (rc : Z) (out err : string) : run_outcome :=
  Completed (mkCompleted rc out err).

(** A host on which everything succeeds: the code prints [hi], the
    directory is a repository with a remote, the push goes through. *)
Definition env_ok : DeployEnv :=
  {| mkdir_docs := Written;
     write_code := Written;
     run_code := exited 0 ("hi" ++ nl) "";
     write_index := Written;
     write_readme := Written;
     git_rev_parse := exited 0 (".git" ++ nl) "";
     git_init := exited 0 "" "";
     git_remote_check := exited 0 ("https://github.com/alice/site.git" ++ nl) "";
     git_add := exited 0 "" "";
     git_commit := exited 0 "1 file changed" "";
     git_push := exited 0 "" "";
     git_remote_result := exited 0 ("https://github.com/alice/site.git" ++ nl) "" |}.

Definition with_push (o : run_outcome) (env : DeployEnv) : DeployEnv :=
  {| mkdir_docs := mkdir_docs env;
     write_code := write_code env;
     run_code := run_code env;
     write_index := write_index env;
     write_readme := write_readme env;
     git_rev_parse := git_rev_parse env;
     git_init := git_init env;
     git_remote_check := git_remote_check env;
     git_add := git_add env;
     git_commit := git_commit env;
     git_push := o;
     git_remote_result := git_remote_result env |}.

(** The push does not come back within its 30 seconds. *)
Definition env_push_timeout : DeployEnv := with_push Expired env_ok.

(** The push is refused by a hook of the remote that asks for
    authentication: the error text holds both phrases. *)
Definition rejected_auth_text : string :=
  "remote: error: authentication required for protected branch" ++ nl ++
  " ! [remote rejected] main -> main (pre-receive hook declined)".

Definition env_push_rejected_auth : DeployEnv :=
  with_push (exited 1 "" rejected_auth_text) env_ok.

(** The push is refused for want of credentials. *)
Definition env_push_auth : DeployEnv :=
  with_push (exited 128 "" "fatal: Authentication failed for 'https://github.com/alice/site.git/'") env_ok.

(** The disk refuses the source file. *)
Definition env_code_write_fails : DeployEnv :=
  {| mkdir_docs := Written;
     write_code := OSError "[Errno 28] No space left on device";
     run_code := run_code env_ok;
     write_index := Written;
     write_readme := Written;
     git_rev_parse := git_rev_parse env_ok;
     git_init := git_init env_ok;
     git_remote_check := git_remote_check env_ok;
     git_add := git_add env_ok;
     git_commit := git_commit env_ok;
     git_push := git_push env_ok;
     git_remote_result := git_remote_result env_ok |}.

(** No repository yet, and none of the remotes is [origin] after the
    initialization. *)
Definition env_no_remote : DeployEnv :=
  {| mkdir_docs := Written;
     write_code := Written;
     run_code := run_code env_ok;
     write_index := Written;
     write_readme := Written;
     git_rev_parse := exited 128 "" "fatal: not a git repository (or any of the parent directories): .git";
     git_init := exited 0 "" "";
     git_remote_check := exited 2 "" "error: No such remote 'origin'";
     git_add := git_add env_ok;
     git_commit := git_commit env_ok;
     git_push := git_push env_ok;
     git_remote_result := git_remote_result env_ok |}.

(** The remote is a user page repository. *)
Definition env_user_page : DeployEnv :=
  {| mkdir_docs := Written;
     write_code := Written;
     run_code := run_code env_ok;
     write_index := Written;
     write_readme := Written;
     git_rev_parse := git_rev_parse env_ok;
     git_init := git_init env_ok;
     git_remote_check := git_remote_check env_ok;
     git_add := git_add env_ok;
     git_commit := git_commit env_ok;
     git_push := git_push env_ok;
     git_remote_result :=
       exited 0 ("https://github.com/alice/alice.github.io.git" ++ nl) "" |}.

(** The code prints markup that is not a document. *)
Definition env_markup_output : DeployEnv :=
  {| mkdir_docs := Written;
     write_code := Written;
     run_code := exited 0 "<b>1 & 2</b>" "";
     write_index := Written;
     write_readme := Written;
     git_rev_parse := git_rev_parse env_ok;
     git_init := git_init env_ok;
     git_remote_check := git_remote_check env_ok;
     git_add := git_add env_ok;
     git_commit := git_commit env_ok;
     git_push := git_push env_ok;
     git_remote_result := git_remote_result env_ok |}.

Definition request (code : string) (auto_push : bool) : option RequestData :=
  Some (mkRequest (Some code) (Some auto_push)).

Definition hello : string := "print('hi')".

(** Hosts of [deploy_code]. *)
Definition exec_ok : ExecEnv :=
  {| save_generated := Written; run_generated := exited 0 ("hi" ++ nl) "" |}.

Definition exec_readonly : ExecEnv :=
  {| save_generated := OSError "[Errno 13] Permission denied: 'generated_code.py'";
     run_generated := run_generated exec_ok |}.

Definition exec_timeout : ExecEnv :=
  {| save_generated := Written; run_generated := Expired |}.

(** *** Frames *)

(** [m] only adds to the trace, and what it adds satisfies [P]. *)
Definition appends {R A : Type} (P : action -> Prop) (m : M R A) : Prop :=
  forall st, exists acts,
    trace (snd (m st)) = (trace st ++ acts)%list /\ Forall P acts.

(** The actions of the materialization: the directory, the writes, and the
    run of the generated code. *)
Definition local_action (a : action) : Prop :=
  match a with
  | MkDir _ => True
  | WriteFile _ _ => True
  | RemoveFile _ => False
  | Exec argv => argv = cmd_python
  end.

(** The commands of a stage of the publication. *)
Definition runs (cmds : list (list string)) (a : action) : Prop :=
  In a (map Exec cmds).

(** The state in which the chain of git commands starts. *)
Definition announced (st : state) : state :=
  mkState (deployment_log st ++ [nl ++ "🔄 Starting automated Git deployment..."])
    (trace st).

(** Every git command of the publication. *)
Definition git_commands : list (list string) :=
  [cmd_rev_parse; cmd_init; cmd_remote; cmd_add; cmd_commit; cmd_push].

(** The opening tag of the block that receives the output. *)
Definition pre_open : string :=
  "<pre class=" ++ dq ++ "whitespace-pre-wrap font-mono text-green-400" ++ dq ++ ">".

(** [c] does not occur in [p]. *)
Fixpoint avoids (c : ascii) (p : string) : Prop :=
  match p with
  | EmptyString => True
  | String x p' => x <> c /\ avoids c p'
  end.

(** The code prints a complete document. *)
Definition env_document_output : DeployEnv :=
  {| mkdir_docs := Written;
     write_code := Written;
     run_code := exited 0 "<html><body>ok</body></html>" "";
     write_index := Written;
     write_readme := Written;
     git_rev_parse := git_rev_parse env_ok;
     git_init := git_init env_ok;
     git_remote_check := git_remote_check env_ok;
     git_add := git_add env_ok;
     git_commit := git_commit env_ok;
     git_push := git_push env_ok;
     git_remote_result := git_remote_result env_ok |}.

(** The same content is deployed a second time. *)
Definition env_unchanged : DeployEnv :=
  {| mkdir_docs := Written;
     write_code := Written;
     run_code := run_code env_ok;
     write_index := Written;
     write_readme := Written;
     git_rev_parse := git_rev_parse env_ok;
     git_init := git_init env_ok;
     git_remote_check := git_remote_check env_ok;
     git_add := git_add env_ok;
     git_commit :=
       exited 1 ("On branch main" ++ nl ++ "nothing to commit, working tree clean" ++ nl) "";
     git_push := git_push env_ok;
     git_remote_result := git_remote_result env_ok |}.

(** The remote has commits the local branch lacks. *)
Definition env_push_rejected : DeployEnv :=
  with_push
    (exited 1 "" " ! [rejected]        main -> main (fetch first)")
    env_ok.

(** *** [generate_code]: the Generate operation *)

(** A call of [client.chat.completions.create]: the model and the two
    messages (the temperature is the constant 0.1). *)
Record ChatRequest : Type := mkChat {
  chat_model : string;
  chat_system : string;
  chat_user : string
}.

(** What a call of [client.chat.completions.create] comes back with: a
    completion with its choices, each with the [content] of its message
    ([None] for a null content), or an exception with its text. *)
Inductive llm_outcome : Type :=
| Replied (choices : list (option string))
| ApiFailed (msg : string).

(** A computation that may call the completion client: it threads the list
    of the calls made so far, in order.  A call is one entry, whatever the
    client does on the wire to serve it (it may retry). *)
Definition ClientM (A : Type) : Type := list ChatRequest -> A * list ChatRequest.

(** [client.chat.completions.create(model=model, messages=[system, user],
    temperature=0.1)]: the call is recorded, and the client answers [api]. *)
Definition chat_completions_create (api : llm_outcome) (model system user : string)
    : ClientM llm_outcome :=
  fun calls => (api, (calls ++ [mkChat model system user])%list).

(** The system message of line 33. *)
Definition system_prompt : string :=
  "You are an expert Python programmer. Write only the runnable Python code requested by the user. Do not include any explanations, markdown formatting (like ```python), or extra text—just the raw code. The code should be self-contained.".

(** Lines 22-43: the client is called once; the result is the text of the
    first choice, stripped, or a text that starts with [Error:].
    [completion.choices[0]] raises [IndexError] on an empty list, inside the
    [try], as does a call that fails. *)
Definition generate_code_from_llm (api : llm_outcome) (prompt : string) : ClientM string :=
  fun calls =>
    let (completion, calls1) :=
      chat_completions_create api "gpt-4o-mini" system_prompt prompt calls in
    (match completion with
     | Replied choices =>
         match choices with
         | first :: _ =>
             match first with
             | Some content =>
                 if PyStr.truthy content
                 then PyStr.strip content
                 else "Error: No content returned from API"
             | None => "Error: No content returned from API"
             end
         | [] => "Error: Could not connect to OpenAI API. " ++ "list index out of range"
         end
     | ApiFailed msg => "Error: Could not connect to OpenAI API. " ++ msg
     end,
     calls1).

(** The completion brought no usable text: the call raised, there is no
    choice, or the content of the first choice is null or empty. *)
Definition failed_completion (api : llm_outcome) : Prop :=
  match api with
  | ApiFailed _ => True
  | Replied [] => True
  | Replied (None :: _) => True
  | Replied (Some content :: _) => content = ""
  end.

(** The JSON body of [/generate_code], read with [data.get('prompt', '')]:
    a JSON object, with or without the key [prompt], or [None] for a body
    that is a falsy JSON value.  (A request without a JSON body is refused
    by [request.json] before the handler reads it, and [data.get] raises on
    a body that is a non-empty list, a number or a string: neither has a
    value here.) *)
Record PromptData : Type := mkPrompt {
  data_prompt : option string
}.

Definition request_prompt (data : option PromptData) : string :=
  match data with
  | Some d => match data_prompt d with Some p => p | None => EmptyString end
  | None => EmptyString
  end.

(** The response of [/generate_code]. *)
Record CodeResponse : Type := mkCode {
  resp_code : string;
  resp_message : string
}.

(** Lines 55-70: the body of the route [/generate_code]. *)
Definition generate_code_body (api : llm_outcome) (data : option PromptData)
    : ClientM CodeResponse :=
  fun calls =>
    let prompt := request_prompt data in
    if negb (PyStr.truthy prompt)
    then (mkCode "" "Please enter a prompt.", calls)
    else
      let (generated_code, calls1) := generate_code_from_llm api prompt calls in
      if PyStr.startswith generated_code "Error:"
      then (mkCode generated_code "API Error", calls1)
      else (mkCode generated_code "Code generated successfully.", calls1).

(** The route [/generate_code]: its response and the calls it made on the
    client. *)
Definition generate_code (api : llm_outcome) (data : option PromptData)
    : CodeResponse * list ChatRequest :=
  generate_code_body api data [].


(** *** Notions for the further properties *)




(** The three terminal statuses. *)
Definition valid_status (r : DeploymentResult) : Prop :=
  status r = "success" \/ status r = "partial" \/ status r = "error".

(** Whenever [m] returns from the handler, the response and the state it
    leaves satisfy [Q]. *)
Definition returns {A : Type} (Q : DeploymentResult -> state -> Prop)
    (m : M DeploymentResult A) : Prop :=
  forall st,
    match m st with
    | (Return r, st1) => Q r st1
    | _ => True
    end.

(** [m] never falls through: it raises or returns. *)
Definition ends {A : Type} (m : M DeploymentResult A) : Prop :=
  forall st, match fst (m st) with Value _ => False | _ => True end.

(** [m] only adds to the log. *)
Definition logs {R A : Type} (m : M R A) : Prop :=
  forall st, exists es,
    deployment_log (snd (m st)) = (deployment_log st ++ es)%list.

(** Everything [deploy_to_github] may do for the source text [src]: create
    [docs], write the three files of the site, run the generated code, run
    one of the six git commands. *)
Definition site_action (src : string) (a : action) : Prop :=
  match a with
  | MkDir path => path = "docs"
  | WriteFile path content =>
      (path = "docs/generated_code.py" /\ content = src) \/
      path = "docs/index.html" \/
      (path = "docs/README.md" /\ content = readme_content)
  | RemoveFile _ => False
  | Exec argv => argv = ["python"; "docs/generated_code.py"] \/ In argv git_commands
  end.

(** The host [env] with another answer to the run of the generated code. *)
Definition with_run (o : run_outcome) (env : DeployEnv) : DeployEnv :=
  {| mkdir_docs := mkdir_docs env;
     write_code := write_code env;
     run_code := o;
     write_index := write_index env;
     write_readme := write_readme env;
     git_rev_parse := git_rev_parse env;
     git_init := git_init env;
     git_remote_check := git_remote_check env;
     git_add := git_add env;
     git_commit := git_commit env;
     git_push := git_push env;
     git_remote_result := git_remote_result env |}.

(** The commit fails for a reason of its own. *)
Definition env_commit_fails : DeployEnv :=
  {| mkdir_docs := Written;
     write_code := Written;
     run_code := run_code env_ok;
     write_index := Written;
     write_readme := Written;
     git_rev_parse := git_rev_parse env_ok;
     git_init := git_init env_ok;
     git_remote_check := git_remote_check env_ok;
     git_add := exited 128 "" "fatal: pathspec 'docs/' did not match any files";
     git_commit := exited 128 "" "fatal: unable to auto-detect email address";
     git_push := git_push env_ok;
     git_remote_result := git_remote_result env_ok |}.

(** No repository yet, and [git init] fails. *)
Definition env_init_fails : DeployEnv :=
  {| mkdir_docs := Written;
     write_code := Written;
     run_code := run_code env_ok;
     write_index := Written;
     write_readme := Written;
     git_rev_parse := git_rev_parse env_no_remote;
     git_init := exited 1 "" "";
     git_remote_check := git_remote_check env_ok;
     git_add := git_add env_ok;
     git_commit := git_commit env_ok;
     git_push := git_push env_ok;
     git_remote_result := git_remote_result env_ok |}.

(** * Properties *)

(** ** The string methods on sample inputs *)

Example startswith_ex : PyStr.startswith "Execution Failed: x" "Execution Failed:" = true.
Proof. reflexivity. Qed.

Example contains_ex : PyStr.contains "<html" (PyStr.lower "x <HTML lang>") = true.
Proof. reflexivity. Qed.

Example strip_ex : PyStr.strip (String "009" " a b " ++ String "010" "") = "a b".
Proof. reflexivity. Qed.

Example replace_ex : PyStr.replace "a.git/b.github.io.git" ".git" "" = "a/bhub.io".
Proof. reflexivity. Qed.

Example replace_once_ex : PyStr.replace ".g.gitit" ".git" "" = ".git".
Proof. reflexivity. Qed.

Example split_ex : PyStr.split "https://github.com/o/r" "/" = ["https:"; ""; "github.com"; "o"; "r"].
Proof. reflexivity. Qed.

Example split_trailing_ex : PyStr.split "a/" "/" = ["a"; ""].
Proof. reflexivity. Qed.

Example getitem_neg_ex : PyStr.getitem_neg ["a"; "b"; "c"] 2 = Some "b".
Proof. reflexivity. Qed.

(** ** Strings *)

Section StringFacts.

Lemma append_nil_r (s : string) : s ++ "" = s.
Proof. induction s as [|c s IH]; simpl; [reflexivity | now rewrite IH]. Qed.

Lemma append_assoc (a b c : string) : (a ++ b) ++ c = a ++ (b ++ c).
Proof. induction a as [|x a IH]; simpl; [reflexivity | now rewrite IH]. Qed.

Lemma startswith_iff (s p : string) :
  PyStr.startswith s p = true <-> exists rest, s = p ++ rest.
Proof.
  revert s; induction p as [|a p IH]; intros s; simpl.
  - split; [intros _; now exists s | reflexivity].
  - destruct s as [|b s].
    + split; [discriminate | intros [rest H]; discriminate].
    + rewrite andb_true_iff, Ascii.eqb_eq, IH. split.
      * intros [-> [rest ->]]. now exists rest.
      * intros [rest H]. injection H as -> ->. split; [reflexivity | now exists rest].
Qed.

Lemma startswith_app (p rest : string) : PyStr.startswith (p ++ rest) p = true.
Proof. apply startswith_iff. now exists rest. Qed.

Lemma contains_iff (sub s : string) :
  PyStr.contains sub s = true <-> exists pre post, s = pre ++ sub ++ post.
Proof.
  induction s as [|c s IH]; simpl.
  - rewrite orb_false_r, startswith_iff. split.
    + intros [rest H]. exists "", rest. exact H.
    + intros [pre [post H]]. destruct pre; [now exists post | discriminate].
  - rewrite orb_true_iff, startswith_iff, IH. split.
    + intros [[rest H] | [pre [post H]]].
      * exists "", rest. exact H.
      * exists (String c pre), post. simpl. now rewrite H.
    + intros [pre [post H]]. destruct pre as [|x pre]; simpl in H.
      * left. now exists post.
      * right. injection H as _ H. now exists pre, post.
Qed.

Lemma lower_app (a b : string) :
  PyStr.lower (a ++ b) = PyStr.lower a ++ PyStr.lower b.
Proof. induction a as [|x a IH]; simpl; [reflexivity | now rewrite IH]. Qed.

(** A split of the lowered text comes from a split of the text. *)
Lemma lower_app_inv (s a b : string) :
  PyStr.lower s = a ++ b ->
  exists a' b', s = a' ++ b' /\ PyStr.lower a' = a /\ PyStr.lower b' = b.
Proof.
  revert s; induction a as [|x a IH]; intros s H.
  - exists "", s. auto.
  - destruct s as [|c s]; simpl in H; [discriminate|].
    injection H as Hc H. destruct (IH _ H) as [a' [b' [-> [Ha Hb]]]].
    exists (String c a'), b'. simpl. now rewrite Hc, Ha, Hb.
Qed.

Lemma lower_char_idem (c : ascii) :
  PyStr.lower_char (PyStr.lower_char c) = PyStr.lower_char c.
Proof.
  destruct c as [[] [] [] [] [] [] [] []]; reflexivity.
Qed.

Lemma lower_idem (s : string) : PyStr.lower (PyStr.lower s) = PyStr.lower s.
Proof.
  induction s as [|c s IH]; simpl; [reflexivity|].
  now rewrite lower_char_idem, IH.
Qed.

(** The test [marker in text.lower()] is containment up to case. *)
Lemma contains_lower_iff (marker text : string) :
  PyStr.lower marker = marker ->
  PyStr.contains marker (PyStr.lower text) = true <-> contains_ci marker text.
Proof.
  intros Hm. rewrite contains_iff. unfold contains_ci. split.
  - intros [pre [post H]].
    destruct (lower_app_inv _ _ _ H) as [pre' [r [-> [_ Hr]]]].
    destruct (lower_app_inv _ _ _ Hr) as [mid [post' [-> [Hmid _]]]].
    exists pre', mid, post'. rewrite Hm. auto.
  - intros [pre [mid [post [-> H]]]].
    exists (PyStr.lower pre), (PyStr.lower post).
    now rewrite !lower_app, H, Hm.
Qed.

(** A text that holds the marker verbatim holds it up to case. *)
Lemma contains_lower (marker text : string) :
  PyStr.lower marker = marker ->
  PyStr.contains marker text = true ->
  PyStr.contains marker (PyStr.lower text) = true.
Proof.
  intros Hm H. apply contains_lower_iff; [exact Hm|].
  apply contains_iff in H. destruct H as [pre [post ->]].
  now exists pre, marker, post.
Qed.

End StringFacts.

(** ** The machinery of the handler proofs *)

Arguments html_content : simpl never.
Arguments readme_content : simpl never.
Arguments manual_instructions : simpl never.
Arguments remote_instructions : simpl never.
Arguments looks_like_html : simpl never.
Arguments chosen_output : simpl never.
Arguments announce_pages_url : simpl never.
Arguments str_exn : simpl never.
Arguments PyStr.contains : simpl never.
Arguments PyStr.lower : simpl never.

Ltac unfold_handler :=
  unfold deploy_to_github, deploy_code, deploy_code_body, deploy_body, guarded,
    materialize, publish, ensure_repository, stage_and_commit, push_and_report,
    deploy_except, try_except, bind, file_op,
    subprocess_run, perform, log_append, get_log, ret, raise, return_,
    response_of, trace_of, log_of, initial_state in *.

(** One answer of the host, or one test of the handler, at a time. *)
Ltac host_case :=
  match goal with
  | |- context [match ?o with Written => _ | OSError _ => _ end] =>
      destruct o eqn:?
  | |- context [match ?o with Completed _ => _ | Expired => _
                           | NotFound _ => _ | LaunchError _ => _ end] =>
      destruct o eqn:?
  | |- context [if ?b then _ else _] => destruct b eqn:?
  end; simpl.

Ltac no_such_action :=
  repeat match goal with
         | H : _ \/ _ |- _ => destruct H
         | H : False |- _ => destruct H
         | H : @eq action _ _ |- _ => discriminate H
         | H : @eq action (Exec _) (Exec _) |- _ => inversion H; fail
         end.

Lemma truthy_nonempty (s : string) : s <> "" -> PyStr.truthy s = true.
Proof. destruct s; [congruence | reflexivity]. Qed.

Lemma in_app_last {A : Type} (x : A) (l : list A) : In x (l ++ [x]).
Proof. apply in_or_app. right. now left. Qed.


(** ** Frames of the handler monad *)

Section Frames.

Context {R : Type}.
Implicit Types (P : action -> Prop).

Lemma appends_ret {A : Type} P (a : A) : appends P (ret (R := R) a).
Proof. intros st. exists []. simpl. now rewrite app_nil_r. Qed.

Lemma appends_raise {A : Type} P (e : exn) : appends P (raise (R := R) (A := A) e).
Proof. intros st. exists []. simpl. now rewrite app_nil_r. Qed.

Lemma appends_return {A : Type} P (r : R) : appends P (return_ (A := A) r).
Proof. intros st. exists []. simpl. now rewrite app_nil_r. Qed.

Lemma appends_log_append P (entry : string) : appends P (log_append (R := R) entry).
Proof. intros st. exists []. simpl. now rewrite app_nil_r. Qed.

Lemma appends_get_log P : appends P (get_log (R := R)).
Proof. intros st. exists []. simpl. now rewrite app_nil_r. Qed.

Lemma appends_perform P (a : action) : P a -> appends P (perform (R := R) a).
Proof. intros H st. exists [a]. simpl. auto. Qed.

Lemma appends_bind {A B : Type} P (m : M R A) (k : A -> M R B) :
  appends P m -> (forall a, appends P (k a)) -> appends P (bind m k).
Proof.
  intros Hm Hk st. unfold bind.
  destruct (Hm st) as [acts1 [E1 F1]].
  destruct (m st) as [[a | e | r] st1]; simpl in E1.
  - destruct (Hk a st1) as [acts2 [E2 F2]].
    exists (acts1 ++ acts2)%list. rewrite E2, E1, app_assoc. split; [reflexivity|].
    apply Forall_app. auto.
  - exists acts1. auto.
  - exists acts1. auto.
Qed.

Lemma appends_try_except {A : Type} P (m : M R A) (h : exn -> M R A) :
  appends P m -> (forall e, appends P (h e)) -> appends P (try_except m h).
Proof.
  intros Hm Hh st. unfold try_except.
  destruct (Hm st) as [acts1 [E1 F1]].
  destruct (m st) as [[a | e | r] st1]; simpl in E1.
  - exists acts1. auto.
  - destruct (Hh e st1) as [acts2 [E2 F2]].
    exists (acts1 ++ acts2)%list. rewrite E2, E1, app_assoc. split; [reflexivity|].
    apply Forall_app. auto.
  - exists acts1. auto.
Qed.

Lemma appends_file_op P (a : action) (o : file_outcome) :
  P a -> appends P (file_op (R := R) a o).
Proof.
  intros H. apply appends_bind; [now apply appends_perform|].
  intros _. destruct o; [apply appends_ret | apply appends_raise].
Qed.

Lemma appends_subprocess_run P (argv : list string) (check : bool)
    (timeout : option Z) (o : run_outcome) :
  P (Exec argv) -> appends P (subprocess_run (R := R) argv check timeout o).
Proof.
  intros H. apply appends_bind; [now apply appends_perform|].
  intros _. destruct o as [p | | |]; try apply appends_raise.
  destruct (check && negb (returncode p =? 0)%Z);
    [apply appends_raise | apply appends_ret].
Qed.

Lemma appends_getitem {A : Type} P (l : list A) (k : nat) :
  appends P (getitem (R := R) l k).
Proof.
  unfold getitem. destruct (PyStr.getitem_neg l k);
    [apply appends_ret | apply appends_raise].
Qed.

Lemma appends_weaken {A : Type} P (Q : action -> Prop) (m : M R A) :
  (forall a, P a -> Q a) -> appends P m -> appends Q m.
Proof.
  intros HPQ Hm st. destruct (Hm st) as [acts [E F]]. exists acts.
  split; [exact E|]. revert F. apply Forall_impl. exact HPQ.
Qed.

End Frames.

Create HintDb frames.
#[local] Hint Resolve appends_ret appends_raise appends_return appends_log_append
  appends_get_log appends_getitem : frames.

(** The frame of a block is found along its syntax. *)
Ltac frame :=
  repeat match goal with
    | |- appends _ (bind _ _) => apply appends_bind; [| intros ?]
    | |- appends _ (file_op _ _) => apply appends_file_op; exact I
    | |- appends _ (subprocess_run _ _ _ _) =>
        apply appends_subprocess_run;
        first [reflexivity | unfold runs; simpl; tauto]
    | |- appends _ (if ?b then _ else _) => destruct b
    | |- appends _ _ => solve [auto 8 with frames]
    end.

Lemma materialize_appends (env : DeployEnv) (code : string) :
  appends local_action (materialize env code).
Proof. unfold materialize. frame. Qed.

Lemma announce_pages_url_appends (P : action -> Prop) (remote_url : string) :
  appends P (announce_pages_url remote_url).
Proof. unfold announce_pages_url. frame. Qed.

Lemma ensure_repository_appends (env : DeployEnv) :
  appends (runs [cmd_rev_parse; cmd_init; cmd_remote]) (ensure_repository env).
Proof. unfold ensure_repository. frame. Qed.

Lemma stage_and_commit_appends (env : DeployEnv) :
  appends (runs [cmd_add; cmd_commit]) (stage_and_commit env).
Proof. unfold stage_and_commit. frame. Qed.

Lemma push_and_report_appends (env : DeployEnv) :
  appends (runs [cmd_push; cmd_remote]) (push_and_report env).
Proof.
  unfold push_and_report. frame; apply announce_pages_url_appends.
Qed.

Lemma deploy_except_appends (P : action -> Prop) (e : exn) :
  appends P (deploy_except e).
Proof. unfold deploy_except. destruct e; frame. Qed.

Lemma guarded_appends (P : action -> Prop) (m : M DeploymentResult unit) :
  appends P m -> appends P (guarded m).
Proof.
  intros H. apply appends_try_except; [exact H|].
  intros e. apply deploy_except_appends.
Qed.

(** ** Stepping through the guarded body *)

Lemma guarded_bind {A : Type} (m : M DeploymentResult A)
    (k : A -> M DeploymentResult unit) (st : state) :
  guarded (bind m k) st =
  match m st with
  | (Value a, st1) => guarded (k a) st1
  | (Raise e, st1) => deploy_except e st1
  | (Return r, st1) => (Return r, st1)
  end.
Proof.
  unfold guarded, try_except, bind. destruct (m st) as [[a | e | r] st1]; reflexivity.
Qed.

Lemma deploy_except_trace (e : exn) (st : state) :
  trace (snd (deploy_except e st)) = trace st.
Proof. destruct e; reflexivity. Qed.

(** The handler answers whatever was raised with an [error] response whose
    log ends with the entry of the failure. *)
Lemma deploy_except_response (e : exn) (st : state) :
  response_of (deploy_except e st)
  = Some match e with
         | TimeoutExpired _ _ =>
             mkResult "error" "Deployment timed out"
               (Some (deployment_log st ++ ["❌ Operation timed out"])%list) None None
         | _ =>
             mkResult "error" ("Deployment failed: " ++ str_exn e)
               (Some (deployment_log st ++ [("❌ Error: " ++ str_exn e)%string])%list)
               None None
         end.
Proof. destruct e; reflexivity. Qed.

(** A stage that cannot perform [target] either hands over to the rest of
    the body, or the run ends without [target] having been performed. *)
Lemma guarded_step {A : Type} (P : action -> Prop) (target : action)
    (m : M DeploymentResult A) (k : A -> M DeploymentResult unit) (st : state) :
  appends P m ->
  ~ P target ->
  ~ In target (trace st) ->
  In target (trace (snd (guarded (bind m k) st))) ->
  exists a st1 acts,
    m st = (Value a, st1) /\
    guarded (bind m k) st = guarded (k a) st1 /\
    trace st1 = (trace st ++ acts)%list /\ Forall P acts /\
    ~ In target (trace st1).
Proof.
  intros Hm HP Hst HIn. rewrite guarded_bind in *.
  destruct (Hm st) as [acts [E F]].
  assert (Hst1 : ~ In target (trace (snd (m st)))).
  { rewrite E. intros H. apply in_app_or in H. destruct H as [H | H]; [auto|].
    rewrite Forall_forall in F. apply HP, F, H. }
  destruct (m st) as [[a | e | r] st1]; simpl in *.
  - exists a, st1, acts. auto.
  - rewrite deploy_except_trace in HIn. contradiction.
  - contradiction.
Qed.

Lemma no_action_log_append (entry : string) :
  appends (fun _ => False) (log_append (R := DeploymentResult) entry).
Proof. apply appends_log_append. Qed.

Lemma deploy_to_github_nonempty (env : DeployEnv) (data : option RequestData) :
  request_code data <> "" ->
  deploy_to_github env data
  = guarded (deploy_body env (request_code data) (request_auto_push data))
      initial_state.
Proof.
  intros H. unfold deploy_to_github. destruct (request_code data);
    [congruence | reflexivity].
Qed.

(** A run that performs anything at all was given code. *)
Lemma performed_nonempty (env : DeployEnv) (data : option RequestData) (a : action) :
  In a (trace_of (deploy_to_github env data)) -> request_code data <> "".
Proof.
  unfold deploy_to_github, trace_of. destruct (request_code data); simpl;
    [intros [] | discriminate].
Qed.

Ltac not_in_runs :=
  unfold runs, local_action; simpl;
  repeat match goal with
         | |- ~ _ => intros ?
         | H : _ \/ _ |- _ => destruct H
         | H : False |- _ => destruct H
         | H : _ = _ |- _ => discriminate H
         end.

(** Whoever performs a git command went through the materialization in
    automatic mode. *)
Lemma reaches_publish (env : DeployEnv) (data : option RequestData) (target : action) :
  ~ local_action target ->
  In target (trace_of (deploy_to_github env data)) ->
  exists st,
    materialize env (request_code data) initial_state = (Value tt, st) /\
    request_auto_push data = true /\
    deploy_to_github env data = guarded (publish env) st /\
    Forall local_action (trace st).
Proof.
  intros HT HIn. pose proof (performed_nonempty _ _ _ HIn) as Hc.
  unfold trace_of in HIn. rewrite (deploy_to_github_nonempty _ _ Hc) in *.
  unfold deploy_body in *.
  destruct (guarded_step local_action target _ _ initial_state
              (materialize_appends env (request_code data)) HT (fun H => H) HIn)
    as [[] [st1 [acts [E1 [E2 [E3 [F3 N3]]]]]]].
  rewrite E2 in *. clear E2. simpl in E3. subst acts.
  destruct (request_auto_push data).
  - exists st1. auto.
  - rewrite guarded_bind in HIn. simpl in HIn. contradiction.
Qed.

Lemma guarded_publish (env : DeployEnv) (st : state) :
  guarded (publish env) st
  = guarded (ensure_repository env ;; stage_and_commit env ;; push_and_report env)
      (announced st).
Proof. unfold publish. rewrite guarded_bind. reflexivity. Qed.

Lemma not_local_in (target : action) (l : list action) :
  ~ local_action target -> Forall local_action l -> ~ In target l.
Proof. intros HT F H. rewrite Forall_forall in F. apply HT, F, H. Qed.

(** Whoever pushes went through the whole chain before. *)
Lemma reaches_push (env : DeployEnv) (data : option RequestData) :
  In (Exec cmd_push) (trace_of (deploy_to_github env data)) ->
  exists st,
    deploy_to_github env data = guarded (push_and_report env) st /\
    ~ In (Exec cmd_push) (trace st).
Proof.
  intros HIn.
  assert (HT : ~ local_action (Exec cmd_push)) by not_in_runs.
  destruct (reaches_publish env data _ HT HIn) as [st [_ [_ [E F]]]].
  unfold trace_of in HIn. rewrite E, guarded_publish in *. clear E.
  pose proof (not_local_in _ _ HT F) as N.
  assert (H1 : ~ runs [cmd_rev_parse; cmd_init; cmd_remote] (Exec cmd_push))
    by not_in_runs.
  assert (H2 : ~ runs [cmd_add; cmd_commit] (Exec cmd_push)) by not_in_runs.
  destruct (guarded_step _ _ _ _ (announced st) (ensure_repository_appends env) H1 N HIn)
    as [[] [st1 [acts1 [_ [E2 [_ [_ N1]]]]]]].
  rewrite E2 in *. clear E2.
  destruct (guarded_step _ _ _ _ _ (stage_and_commit_appends env) H2 N1 HIn)
    as [[] [st2 [acts2 [_ [E3 [_ [_ N2]]]]]]].
  exists st2. split; [now rewrite E3 | exact N2].
Qed.

Lemma publish_appends (env : DeployEnv) :
  appends (runs git_commands) (publish env).
Proof.
  unfold publish. apply appends_bind; [apply appends_log_append | intros _].
  apply appends_bind; [| intros _; apply appends_bind; [| intros _]].
  - eapply appends_weaken; [| apply ensure_repository_appends].
    unfold runs, git_commands; simpl; tauto.
  - eapply appends_weaken; [| apply stage_and_commit_appends].
    unfold runs, git_commands; simpl; tauto.
  - eapply appends_weaken; [| apply push_and_report_appends].
    unfold runs, git_commands; simpl; tauto.
Qed.

(** The trace of a run is the trace of the materialization followed by git
    commands. *)
Lemma deploy_trace_split (env : DeployEnv) (data : option RequestData) :
  request_code data <> "" ->
  exists acts,
    trace_of (deploy_to_github env data)
    = (trace (snd (materialize env (request_code data) initial_state)) ++ acts)%list
    /\ Forall (runs git_commands) acts.
Proof.
  intros Hc. unfold trace_of. rewrite (deploy_to_github_nonempty _ _ Hc).
  unfold deploy_body. rewrite guarded_bind.
  destruct (materialize env (request_code data) initial_state) as [[[] | e | r] st1].
  - assert (F : appends (runs git_commands)
                  (guarded (if request_auto_push data
                            then publish env
                            else l <- get_log ;;
                                 return_ (mkResult "success" "Files created successfully"
                                            (Some l) (Some manual_instructions) None)))).
    { apply guarded_appends. destruct (request_auto_push data);
        [apply publish_appends | frame]. }
    exact (F st1).
  - exists []. rewrite deploy_except_trace, app_nil_r. auto.
  - exists []. simpl. rewrite app_nil_r. auto.
Qed.

(** *** The materialization, case by case *)

Lemma materialize_outcome (env : DeployEnv) (code : string) (st : state) :
  (materialized env /\ exists st1, materialize env code st = (Value tt, st1)) \/
  (~ materialized env /\ exists e st1, materialize env code st = (Raise e, st1)).
Proof.
  unfold materialized, materialize. unfold_handler.
  destruct (mkdir_docs env); simpl;
    [| right; split; [intros [H _]; discriminate | eauto]].
  destruct (write_code env); simpl;
    [| right; split; [intros [_ [H _]]; discriminate | eauto]].
  destruct (run_code env) as [p | | |]; simpl;
    try (right; split; [intros [_ [_ [[q H] _]]]; discriminate | eauto]).
  destruct (looks_like_html (chosen_output p)); simpl;
    (destruct (write_index env); simpl;
     [| right; split; [intros [_ [_ [_ [H _]]]]; discriminate | eauto]]);
    (destruct (write_readme env); simpl;
     [| right; split; [intros [_ [_ [_ [_ H]]]]; discriminate | eauto]]);
    left; eauto 10.
Qed.

Lemma materialize_index_write (env : DeployEnv) (code : string) (st : state) (doc : string) :
  In (WriteFile index_file doc) (trace (snd (materialize env code st))) ->
  In (WriteFile index_file doc) (trace st) \/
  exists p, run_code env = Completed p /\ doc = entry_document (chosen_output p).
Proof.
  unfold materialize, entry_document. unfold_handler.
  repeat (host_case; rewrite <- ?app_assoc; simpl).
  all: intros HIn; apply in_app_or in HIn; destruct HIn as [HIn | HIn]; [now left|].
  all: simpl in HIn;
    repeat (destruct HIn as [HIn | HIn]; try discriminate HIn); try contradiction.
  all: right; eexists; split; [reflexivity|].
  all: injection HIn as <-.
  all: match goal with H : looks_like_html _ = _ |- _ => rewrite H end; reflexivity.
Qed.

Lemma materialize_writes_index (env : DeployEnv) (code : string) (st : state)
    (p : CompletedProcess) :
  mkdir_docs env = Written ->
  write_code env = Written ->
  run_code env = Completed p ->
  In (WriteFile index_file (entry_document (chosen_output p)))
    (trace (snd (materialize env code st))).
Proof.
  intros H1 H2 H3. unfold materialize, entry_document. unfold_handler.
  rewrite H1, H2, H3. simpl.
  destruct (looks_like_html (chosen_output p)); simpl;
    destruct (write_index env); simpl; try destruct (write_readme env); simpl;
    rewrite <- ?app_assoc; apply in_or_app; right; simpl; auto 8.
Qed.

(** Every write of the entry point carries the document chosen for the
    captured output. *)
Lemma index_write_content (env : DeployEnv) (data : option RequestData) (doc : string) :
  In (WriteFile index_file doc) (trace_of (deploy_to_github env data)) ->
  exists p, run_code env = Completed p /\ doc = entry_document (chosen_output p).
Proof.
  intros HIn. pose proof (performed_nonempty _ _ _ HIn) as Hc.
  destruct (deploy_trace_split env data Hc) as [acts [E F]].
  rewrite E in HIn. apply in_app_or in HIn. destruct HIn as [HIn | HIn].
  - apply materialize_index_write in HIn. destruct HIn as [[] | H]. exact H.
  - rewrite Forall_forall in F. apply F in HIn. revert HIn.
    unfold runs, git_commands. simpl. intros H.
    repeat (destruct H as [H | H]; try discriminate H). contradiction.
Qed.

(** ** The Execute operation *)

(** X20: the Execute operation always answers, whatever the host does: no
    exception escapes the handler. *)
Lemma deploy_code_responds (env : ExecEnv) (data : option RequestData) :
  exists out, response_of (deploy_code env data) = Some out.
Proof.
  unfold_handler. destruct (PyStr.truthy (request_code data)); simpl;
    [| eexists; reflexivity].
  destruct (save_generated env); simpl; [| eexists; reflexivity].
  destruct (run_generated env) as [p | | |]; simpl; try (eexists; reflexivity).
  destruct (returncode p =? 0)%Z; simpl; eexists; reflexivity.
Qed.

(** C4, as the code has it: for non-empty code whose source file could be
    saved, the output starts with exactly one of the four families of fixed
    prefixes; when the file could not be saved the output is
    [Error saving file: ] followed by the message of the failure, a fifth
    prefix. *)
Theorem execute_output_prefix (env : ExecEnv) (data : option RequestData) :
  request_code data <> "" ->
  exists out,
    response_of (deploy_code env data) = Some out /\
    match save_generated env with
    | Written => fixed_prefix_count out = 1
    | OSError msg => out = "Error saving file: " ++ msg
    end.
Proof.
  intros H. unfold_handler. rewrite (truthy_nonempty _ H). simpl.
  destruct (save_generated env) as [|msg]; simpl.
  - destruct (run_generated env) as [p | | |]; simpl.
    + destruct (returncode p =? 0)%Z; simpl; eexists; split; reflexivity.
    + eexists; split; reflexivity.
    + eexists; split; reflexivity.
    + eexists; split; reflexivity.
  - eexists; split; reflexivity.
Qed.

Lemma execute_output_prefix_witness :
  exists out,
    response_of (deploy_code exec_timeout (request hello true)) = Some out /\
    fixed_prefix_count out = 1.
Proof.
  apply (execute_output_prefix exec_timeout (request hello true)). discriminate.
Defined.

(** C4, as stated, fails: when the source file cannot be saved the output
    starts with none of the four families of prefixes. *)
Lemma execute_output_prefix_counterexample :
  request_code (request hello true) <> "" /\
  response_of (deploy_code exec_readonly (request hello true))
    = Some "Error saving file: [Errno 13] Permission denied: 'generated_code.py'" /\
  fixed_prefix_count
    "Error saving file: [Errno 13] Permission denied: 'generated_code.py'" = 0.
Proof. split; [discriminate | split; reflexivity]. Qed.

(** C9, as the code has it: an Execute invocation with non-empty code
    writes the source text to the one fixed path [generated_code.py], the
    same for every invocation, before it runs that file, and the handler
    never removes it. *)
Theorem execute_writes_fixed_path (env : ExecEnv) (data : option RequestData) :
  request_code data <> "" ->
  trace_of (deploy_code env data)
    = WriteFile "generated_code.py" (request_code data)
        :: match save_generated env with
           | Written => [Exec ["python"; "generated_code.py"]]
           | OSError _ => []
           end
  /\ forall path, ~ In (RemoveFile path) (trace_of (deploy_code env data)).
Proof.
  intros H.
  assert (E : trace_of (deploy_code env data)
    = WriteFile "generated_code.py" (request_code data)
        :: match save_generated env with
           | Written => [Exec ["python"; "generated_code.py"]]
           | OSError _ => []
           end).
  { unfold_handler. rewrite (truthy_nonempty _ H). simpl.
    destruct (save_generated env); simpl; [| reflexivity].
    destruct (run_generated env) as [p | | |]; simpl; try reflexivity.
    destruct (returncode p =? 0)%Z; reflexivity. }
  split; [exact E |].
  intros path. rewrite E. destruct (save_generated env); simpl; intros HIn;
    no_such_action.
Qed.

Lemma execute_writes_fixed_path_witness :
  trace_of (deploy_code exec_ok (request hello true))
    = [WriteFile "generated_code.py" hello; Exec ["python"; "generated_code.py"]]
  /\ forall path,
       ~ In (RemoveFile path) (trace_of (deploy_code exec_ok (request hello true))).
Proof.
  apply (execute_writes_fixed_path exec_ok (request hello true)). discriminate.
Defined.

(** C9, as stated, fails: two invocations with different source texts, on
    different hosts, write to the same path, and neither removes the file it
    wrote. *)
Lemma execute_fresh_location_counterexample :
  trace_of (deploy_code exec_ok (request "print(1)" true))
    = [WriteFile "generated_code.py" "print(1)"; Exec ["python"; "generated_code.py"]]
  /\ trace_of (deploy_code exec_timeout (request "print(2)" true))
    = [WriteFile "generated_code.py" "print(2)"; Exec ["python"; "generated_code.py"]].
Proof. split; reflexivity. Qed.

(** ** Validation of the deployment request *)

(** C5: a deployment request with empty code is answered at once with the
    validation error; no effect is performed before, and the response
    carries no log entry. *)
Theorem empty_code_fails_fast (env : DeployEnv) (data : option RequestData) :
  request_code data = "" ->
  exists r,
    response_of (deploy_to_github env data) = Some r /\
    status r = "error" /\
    message r = "No code provided for deployment." /\
    log_entries r = [] /\
    trace_of (deploy_to_github env data) = [] /\
    log_of (deploy_to_github env data) = [].
Proof.
  intros H. unfold deploy_to_github. rewrite H. simpl.
  eexists. split; [reflexivity | repeat split].
Qed.

Lemma empty_code_fails_fast_witness :
  exists r,
    response_of (deploy_to_github env_ok (request "" true)) = Some r /\
    status r = "error" /\
    message r = "No code provided for deployment." /\
    log_entries r = [] /\
    trace_of (deploy_to_github env_ok (request "" true)) = [] /\
    log_of (deploy_to_github env_ok (request "" true)) = [].
Proof. apply (empty_code_fails_fast env_ok (request "" true)). reflexivity. Defined.

(** ** The Push step *)

(** C1, as the code has it: in a run that reaches the Push step, a push
    that completes with a non-zero exit status yields the terminal status
    [partial], with the error text kept; what is appended to the log after
    the failure entry is the pull tip when the text contains [rejected] (in
    any case), the credentials tip when it does not contain [rejected] but
    contains [could not read] or [authentication], and nothing otherwise.
    A push that exceeds its timeout yields the terminal status [error] with
    the message [Deployment timed out], and a push that cannot be launched
    yields [error] as well. *)
Theorem push_failure_outcome (env : DeployEnv) (data : option RequestData) :
  In (Exec cmd_push) (trace_of (deploy_to_github env data)) ->
  match git_push env with
  | Completed p =>
      returncode p <> 0%Z ->
      exists l tips,
        response_of (deploy_to_github env data)
        = Some (mkResult "partial" "Files created and committed, but push failed"
                  (Some (l ++ ("❌ Push failed: " ++ stderr p)%string :: tips)%list)
                  None (Some (stderr p))) /\
        (PyStr.contains "rejected" (stderr p) = true -> tips = [pull_tip]) /\
        (PyStr.contains "rejected" (PyStr.lower (stderr p)) = true ->
         tips = [pull_tip]) /\
        (PyStr.contains "rejected" (PyStr.lower (stderr p)) = false ->
         PyStr.contains "could not read" (PyStr.lower (stderr p))
           || PyStr.contains "authentication" (PyStr.lower (stderr p)) = true ->
         tips = [credentials_tip]) /\
        (PyStr.contains "rejected" (PyStr.lower (stderr p)) = false ->
         PyStr.contains "could not read" (PyStr.lower (stderr p))
           || PyStr.contains "authentication" (PyStr.lower (stderr p)) = false ->
         tips = [])
  | Expired =>
      exists l,
        response_of (deploy_to_github env data)
        = Some (mkResult "error" "Deployment timed out"
                  (Some (l ++ ["❌ Operation timed out"])%list) None None)
  | NotFound msg | LaunchError msg =>
      exists l,
        response_of (deploy_to_github env data)
        = Some (mkResult "error" ("Deployment failed: " ++ msg)
                  (Some (l ++ [("❌ Error: " ++ msg)%string])%list) None None)
  end.
Proof.
  intros HIn. destruct (reaches_push env data HIn) as [st [E N]].
  rewrite E. clear E HIn.
  unfold_handler. destruct (git_push env) as [p | | msg | msg]; simpl.
  - intros Hrc. apply Z.eqb_neq in Hrc. rewrite Hrc. simpl.
    pose proof (contains_lower "rejected" (stderr p) eq_refl) as Hverb.
    destruct (PyStr.contains "rejected" (PyStr.lower (stderr p))) eqn:Hrej; simpl.
    + exists (deployment_log st), [pull_tip]. rewrite <- !app_assoc. simpl.
      repeat split; auto; discriminate.
    + assert (Hno : PyStr.contains "rejected" (stderr p) = true -> False).
      { intros H. apply Hverb in H. discriminate. }
      destruct (PyStr.contains "could not read" (PyStr.lower (stderr p))
                || PyStr.contains "authentication" (PyStr.lower (stderr p)))
        eqn:Hauth; simpl.
      * exists (deployment_log st), [credentials_tip]. rewrite <- !app_assoc. simpl.
        split; [reflexivity|].
        repeat split; try discriminate; auto; intros H; destruct (Hno H).
      * exists (deployment_log st), []. 
        split; [reflexivity|].
        repeat split; try discriminate; auto; intros H; destruct (Hno H).
  - eexists. reflexivity.
  - eexists. reflexivity.
  - eexists. reflexivity.
Qed.

Lemma push_failure_outcome_witness :
  exists l,
    response_of (deploy_to_github env_push_auth (request hello true))
    = Some (mkResult "partial" "Files created and committed, but push failed"
              (Some (l ++
                 [ "❌ Push failed: fatal: Authentication failed for 'https://github.com/alice/site.git/'";
                   credentials_tip ])%list)
              None
              (Some "fatal: Authentication failed for 'https://github.com/alice/site.git/'")).
Proof.
  assert (HIn : In (Exec cmd_push)
                  (trace_of (deploy_to_github env_push_auth (request hello true))))
    by (vm_compute; tauto).
  assert (Hrc : (128 <> 0)%Z) by discriminate.
  destruct (push_failure_outcome env_push_auth (request hello true) HIn Hrc)
    as [l [tips [E [_ [_ [Hc _]]]]]].
  exists l. rewrite E, Hc by reflexivity. reflexivity.
Defined.

(** C1, as stated, fails: a push that exceeds its 30-second timeout ends
    the run with the status [error], and an error text that holds both
    [rejected] and [Authentication] gets the pull tip only. *)
Lemma push_failure_partial_counterexample :
  (In (Exec cmd_push)
     (trace_of (deploy_to_github env_push_timeout (request hello true))) /\
   git_push env_push_timeout = Expired /\
   exists l,
     response_of (deploy_to_github env_push_timeout (request hello true))
     = Some (mkResult "error" "Deployment timed out" (Some l) None None))
  /\
  (In (Exec cmd_push)
     (trace_of (deploy_to_github env_push_rejected_auth (request hello true))) /\
   PyStr.contains "authentication" rejected_auth_text = true /\
   PyStr.contains "rejected" rejected_auth_text = true /\
   exists l,
     response_of (deploy_to_github env_push_rejected_auth (request hello true))
     = Some (mkResult "partial" "Files created and committed, but push failed"
               (Some l) None (Some rejected_auth_text)) /\
     In pull_tip l /\
     ~ In credentials_tip l).
Proof.
  split.
  - split; [vm_compute; tauto|]. split; [reflexivity|].
    eexists. vm_compute. reflexivity.
  - split; [vm_compute; tauto|]. split; [reflexivity|]. split; [reflexivity|].
    eexists. split; [vm_compute; reflexivity|].
    split; [vm_compute; tauto|].
    vm_compute. intros H.
    repeat (destruct H as [H | H]; try discriminate H). exact H.
Qed.

(** ** Manual mode *)

(** C2, as the code has it: with non-empty code and [autoPush = false] the
    handler runs no git command at all (neither the repository check, nor
    the initialization, the staging, the commit or the push, hence no
    network call): the only process it starts is the generated code.  When
    the host lets the materialization through it returns [success] with the
    manual-publish instructions, which name the three git commands to run;
    otherwise it returns [error]. *)
Theorem manual_mode_runs_no_git (env : DeployEnv) (data : option RequestData) :
  request_code data <> "" ->
  request_auto_push data = false ->
  Forall local_action (trace_of (deploy_to_github env data)) /\
  (forall cmd, In cmd git_commands ->
     ~ In (Exec cmd) (trace_of (deploy_to_github env data))) /\
  (materialized env ->
   exists l,
     response_of (deploy_to_github env data)
     = Some (mkResult "success" "Files created successfully"
               (Some l) (Some manual_instructions) None)) /\
  (~ materialized env ->
   exists r,
     response_of (deploy_to_github env data) = Some r /\ status r = "error") /\
  PyStr.contains "git add docs/" manual_instructions = true /\
  PyStr.contains "git commit -m " manual_instructions = true /\
  PyStr.contains "git push origin main" manual_instructions = true.
Proof.
  intros Hc Hap.
  assert (F : Forall local_action (trace_of (deploy_to_github env data))).
  { unfold trace_of. rewrite (deploy_to_github_nonempty _ _ Hc), Hap.
    assert (A : appends local_action
                  (guarded (deploy_body env (request_code data) false))).
    { apply guarded_appends. unfold deploy_body.
      apply appends_bind; [apply materialize_appends | intros _; frame]. }
    destruct (A initial_state) as [acts [E Fa]]. rewrite E. exact Fa. }
  split; [exact F|]. split.
  { intros cmd Hcmd HIn. rewrite Forall_forall in F. apply F in HIn.
    simpl in HIn. subst cmd. revert Hcmd. unfold git_commands. simpl.
    intros H. repeat (destruct H as [H | H]; try discriminate H). exact H. }
  rewrite (deploy_to_github_nonempty _ _ Hc), Hap. unfold deploy_body.
  rewrite guarded_bind.
  destruct (materialize_outcome env (request_code data) initial_state)
    as [[Hm [st1 E]] | [Hm [e [st1 E]]]]; rewrite E.
  - split; [intros _; eexists; reflexivity|].
    split; [intros H; destruct (H Hm)|].
    repeat split.
  - split; [intros H; destruct (Hm H)|].
    split; [| repeat split].
    intros _. rewrite deploy_except_response. eexists. split; [reflexivity|].
    destruct e; reflexivity.
Qed.

Lemma manual_mode_runs_no_git_witness :
  Forall local_action (trace_of (deploy_to_github env_ok (request hello false))) /\
  (forall cmd, In cmd git_commands ->
     ~ In (Exec cmd) (trace_of (deploy_to_github env_ok (request hello false)))) /\
  (materialized env_ok ->
   exists l,
     response_of (deploy_to_github env_ok (request hello false))
     = Some (mkResult "success" "Files created successfully"
               (Some l) (Some manual_instructions) None)) /\
  (~ materialized env_ok ->
   exists r,
     response_of (deploy_to_github env_ok (request hello false)) = Some r /\
     status r = "error") /\
  PyStr.contains "git add docs/" manual_instructions = true /\
  PyStr.contains "git commit -m " manual_instructions = true /\
  PyStr.contains "git push origin main" manual_instructions = true.
Proof.
  apply (manual_mode_runs_no_git env_ok (request hello false));
    [discriminate | reflexivity].
Defined.

(** C2, as stated, fails: on a host where everything succeeds, a request
    with [autoPush = false] is answered with [success], yet the repository
    check, the staging and the commit were never run. *)
Lemma manual_mode_counterexample :
  request_code (request hello false) <> "" /\
  request_auto_push (request hello false) = false /\
  trace_of (deploy_to_github env_ok (request hello false))
  = [ MkDir "docs";
      WriteFile "docs/generated_code.py" hello;
      Exec ["python"; "docs/generated_code.py"];
      WriteFile "docs/index.html" (html_content ("hi" ++ nl));
      WriteFile "docs/README.md" readme_content ] /\
  ~ In (Exec cmd_rev_parse) (trace_of (deploy_to_github env_ok (request hello false))) /\
  ~ In (Exec cmd_add) (trace_of (deploy_to_github env_ok (request hello false))) /\
  ~ In (Exec cmd_commit) (trace_of (deploy_to_github env_ok (request hello false))).
Proof.
  split; [discriminate|]. split; [reflexivity|]. split; [reflexivity|].
  repeat split; vm_compute; intros H;
    repeat (destruct H as [H | H]; try discriminate H); exact H.
Qed.

(** ** Site materialization *)

(** C3, as the code has it: a failure to create the publish directory ends
    the run with the status [error] after that single call; and when the
    directory is created but one of the three writes fails, the failure is
    recorded as the last entry of the log, the failed write is the last
    thing the run attempts (no later write, no git command), and the
    terminal status is [error] as well. *)
Theorem write_failure_aborts (env : DeployEnv) (data : option RequestData) :
  request_code data <> "" ->
  (forall msg,
     mkdir_docs env = OSError msg ->
     response_of (deploy_to_github env data)
     = Some (mkResult "error" ("Deployment failed: " ++ msg)
               (Some [("❌ Error: " ++ msg)%string]) None None) /\
     trace_of (deploy_to_github env data) = [MkDir "docs"]) /\
  (mkdir_docs env = Written ->
   forall path msg,
     failed_write env path msg ->
     exists l acts content,
       response_of (deploy_to_github env data)
       = Some (mkResult "error" ("Deployment failed: " ++ msg)
                 (Some (l ++ [("❌ Error: " ++ msg)%string])%list) None None) /\
       trace_of (deploy_to_github env data)
       = (acts ++ [WriteFile path content])%list /\
       Forall local_action acts /\
       (forall other doc, In (WriteFile other doc) acts -> other <> path)).
Proof.
  intros Hc. rewrite (deploy_to_github_nonempty _ _ Hc). unfold deploy_body.
  rewrite guarded_bind. split.
  - intros msg H. unfold materialize. unfold_handler. rewrite H. simpl. auto.
  - intros Hd path msg Hf. unfold materialize. unfold_handler. rewrite Hd. simpl.
    destruct Hf as [msg H1 | p msg H1 H2 H3 | p msg H1 H2 H3 H4].
    + rewrite H1. simpl. eexists [_]. exists [MkDir GITHUB_PAGES_DIR]. eexists.
      split; [reflexivity|]. split; [reflexivity|].
      split; [repeat constructor|].
      intros other doc [H | []]. discriminate H.
    + rewrite H1, H2. simpl.
      destruct (looks_like_html (chosen_output p)); simpl; rewrite H3; simpl;
        eexists [_; _]; eexists [_; _; _]; eexists;
        (split; [reflexivity|]); (split; [reflexivity|]);
        (split; [repeat constructor|]);
        intros other doc H;
        repeat (destruct H as [H | H]; try discriminate H);
        try contradiction; injection H as <- _; discriminate.
    + rewrite H1, H2. simpl.
      destruct (looks_like_html (chosen_output p)); simpl; rewrite H3, H4; simpl;
        eexists [_; _; _]; eexists [_; _; _; _]; eexists;
        (split; [reflexivity|]); (split; [reflexivity|]);
        (split; [repeat constructor|]);
        intros other doc H;
        repeat (destruct H as [H | H]; try discriminate H);
        try contradiction; injection H as <- _; discriminate.
Qed.

Lemma write_failure_aborts_witness :
  exists l acts content,
    response_of (deploy_to_github env_code_write_fails (request hello true))
    = Some (mkResult "error" "Deployment failed: [Errno 28] No space left on device"
              (Some (l ++ ["❌ Error: [Errno 28] No space left on device"])%list)
              None None) /\
    trace_of (deploy_to_github env_code_write_fails (request hello true))
    = (acts ++ [WriteFile code_file content])%list /\
    Forall local_action acts /\
    (forall other doc, In (WriteFile other doc) acts -> other <> code_file).
Proof.
  assert (Hc : request_code (request hello true) <> "") by discriminate.
  apply (proj2 (write_failure_aborts env_code_write_fails (request hello true) Hc));
    [reflexivity | apply failed_code_write; reflexivity].
Defined.

(** C3, as stated, fails: the directory is created, the write of the source
    file fails, and neither the entry point nor the README is attempted
    afterwards; the run ends with the status [error]. *)
Lemma write_failure_counterexample :
  mkdir_docs env_code_write_fails = Written /\
  write_code env_code_write_fails = OSError "[Errno 28] No space left on device" /\
  trace_of (deploy_to_github env_code_write_fails (request hello true))
  = [MkDir "docs"; WriteFile "docs/generated_code.py" hello] /\
  response_of (deploy_to_github env_code_write_fails (request hello true))
  = Some (mkResult "error" "Deployment failed: [Errno 28] No space left on device"
            (Some [ "✅ Created /docs directory";
                    "❌ Error: [Errno 28] No space left on device" ])
            None None) /\
  (forall doc,
     ~ In (WriteFile "docs/index.html" doc)
         (trace_of (deploy_to_github env_code_write_fails (request hello true)))) /\
  (forall doc,
     ~ In (WriteFile "docs/README.md" doc)
         (trace_of (deploy_to_github env_code_write_fails (request hello true)))).
Proof.
  split; [reflexivity|]. split; [reflexivity|]. split; [reflexivity|].
  split; [reflexivity|].
  split; intros doc H; vm_compute in H;
    repeat (destruct H as [H | H]; try discriminate H); exact H.
Qed.

(** ** The output classifier *)

Lemma looks_like_html_iff (output : string) :
  looks_like_html output = true <->
  contains_ci "<html" output \/ contains_ci "<!doctype" output.
Proof.
  unfold looks_like_html. rewrite orb_true_iff.
  rewrite !contains_lower_iff by reflexivity. reflexivity.
Qed.


(** C10: when the captured output holds no document-start marker, the
    entry point that is written is the wrapper document with the output
    placed as it is, without any escaping, between the opening tag of the
    [pre] block and its closing tag. *)
Theorem wrapper_keeps_output_raw (env : DeployEnv) (data : option RequestData)
    (p : CompletedProcess) :
  request_code data <> "" ->
  mkdir_docs env = Written ->
  write_code env = Written ->
  run_code env = Completed p ->
  ~ (contains_ci "<html" (chosen_output p) \/ contains_ci "<!doctype" (chosen_output p)) ->
  In (WriteFile index_file (html_head ++ chosen_output p ++ html_tail))
    (trace_of (deploy_to_github env data)) /\
  (forall doc,
     In (WriteFile index_file doc) (trace_of (deploy_to_github env data)) ->
     doc = html_head ++ chosen_output p ++ html_tail) /\
  (exists before, html_head = before ++ pre_open) /\
  (exists after, html_tail = "</pre>" ++ after).
Proof.
  intros Hc H1 H2 H3 Hn.
  assert (E : entry_document (chosen_output p)
              = html_head ++ chosen_output p ++ html_tail).
  { unfold entry_document.
    destruct (looks_like_html (chosen_output p)) eqn:L; [| reflexivity].
    destruct Hn. apply looks_like_html_iff. exact L. }
  split; [| split; [| split]].
  - destruct (deploy_trace_split env data Hc) as [acts [Et _]]. rewrite Et.
    apply in_or_app. left. rewrite <- E.
    now apply materialize_writes_index.
  - intros doc HIn. destruct (index_write_content env data doc HIn) as [q [Hq ->]].
    rewrite H3 in Hq. injection Hq as <-. exact E.
  - exists (substring 0 (String.length html_head - String.length pre_open) html_head).
    vm_compute. reflexivity.
  - exists (substring 6 (String.length html_tail - 6) html_tail).
    vm_compute. reflexivity.
Qed.

Lemma wrapper_keeps_output_raw_witness :
  In (WriteFile index_file (html_head ++ "<b>1 & 2</b>" ++ html_tail))
    (trace_of (deploy_to_github env_markup_output (request hello true))) /\
  (forall doc,
     In (WriteFile index_file doc)
       (trace_of (deploy_to_github env_markup_output (request hello true))) ->
     doc = html_head ++ "<b>1 & 2</b>" ++ html_tail) /\
  (exists before, html_head = before ++ pre_open) /\
  (exists after, html_tail = "</pre>" ++ after).
Proof.
  apply (wrapper_keeps_output_raw env_markup_output (request hello true)
           (mkCompleted 0 "<b>1 & 2</b>" "")).
  - discriminate.
  - reflexivity.
  - reflexivity.
  - reflexivity.
  - intros H. apply looks_like_html_iff in H. vm_compute in H. discriminate H.
Defined.

(** ** The string transform of the page URL *)

Section UrlTransform.

Lemma startswith_app_l (a b p : string) :
  PyStr.startswith a p = true -> PyStr.startswith (a ++ b) p = true.
Proof.
  intros H. apply startswith_iff in H. destruct H as [rest ->].
  rewrite append_assoc. apply startswith_app.
Qed.

(** A match that begins in [a] and cannot contain [c] ends in [a]. *)
Lemma startswith_before_char (p a b : string) (c : ascii) :
  avoids c p ->
  PyStr.startswith (a ++ String c b) p = true ->
  PyStr.startswith a p = true.
Proof.
  revert a. induction p as [|x p IH]; intros a Hc H; [reflexivity|].
  destruct Hc as [Hx Hp]. destruct a as [|y a]; simpl in *.
  - apply andb_true_iff in H. destruct H as [H _].
    apply Ascii.eqb_eq in H. contradiction.
  - apply andb_true_iff in H. destruct H as [H1 H2]. rewrite H1. simpl.
    now apply IH.
Qed.

Lemma startswith_length (s p : string) :
  PyStr.startswith s p = true -> String.length p <= String.length s.
Proof.
  revert s. induction p as [|x p IH]; intros s H; simpl; [lia|].
  destruct s as [|y s]; simpl in *; [discriminate|].
  apply andb_true_iff in H. destruct H as [_ H]. apply IH in H. lia.
Qed.

(** [replace] goes through a character that is foreign to [old]. *)
Lemma replace_from_app_char (old new : string) (c : ascii) (b a : string) (k : nat) :
  old <> "" ->
  avoids c old ->
  k <= String.length a ->
  PyStr.replace_from old new k (a ++ String c b)
  = PyStr.replace_from old new k a ++ String c (PyStr.replace_from old new 0 b).
Proof.
  intros Ho Hc. revert k. induction a as [|x a IH]; intros k Hk; simpl in *.
  - assert (k = 0) by lia. subst k.
    destruct (PyStr.startswith (String c b) old) eqn:E; [| reflexivity].
    exfalso. destruct old as [|y old]; [congruence|]. simpl in E.
    apply andb_true_iff in E. destruct E as [E _]. apply Ascii.eqb_eq in E.
    destruct Hc as [Hy _]. contradiction.
  - destruct k as [|k]; [| apply IH; lia].
    destruct (PyStr.startswith (String x (a ++ String c b)) old) eqn:E.
    + pose proof (startswith_before_char old (String x a) b c Hc E) as E'.
      rewrite E'. rewrite IH, append_assoc; [reflexivity|].
      apply startswith_length in E'. simpl in E'. lia.
    + destruct (PyStr.startswith (String x a) old) eqn:E'.
      * apply (startswith_app_l _ (String c b)) in E'. simpl in E'. congruence.
      * now rewrite IH by lia.
Qed.

(** A text without [old] is left as it is. *)
Lemma replace_from_absent (old new s : string) :
  PyStr.contains old s = false -> PyStr.replace_from old new 0 s = s.
Proof.
  induction s as [|x s IH]; intros H; [reflexivity|].
  simpl in H. apply orb_false_iff in H. destruct H as [H1 H2].
  simpl. rewrite H1. now rewrite IH.
Qed.

Lemma contains_tail (old : string) (x : ascii) (s : string) :
  PyStr.contains old (String x s) = false -> PyStr.contains old s = false.
Proof. simpl. intros H. apply orb_false_iff in H. tauto. Qed.

(** The suffix [.git] is removed from a name that holds no [.git]. *)
Lemma replace_git_suffix (s : string) :
  PyStr.contains ".git" s = false ->
  PyStr.replace_from ".git" "" 0 (s ++ ".git") = s.
Proof.
  induction s as [|x s IH]; intros H; [reflexivity|].
  pose proof (contains_tail _ _ _ H) as Ht.
  change (PyStr.replace_from ".git" "" 0 (String x s ++ ".git"))
    with (if PyStr.startswith (String x (s ++ ".git")) ".git"
          then "" ++ PyStr.replace_from ".git" "" 3 (s ++ ".git")
          else String x (PyStr.replace_from ".git" "" 0 (s ++ ".git"))).
  destruct (PyStr.startswith (String x (s ++ ".git")) ".git") eqn:E.
  - exfalso. simpl in H. apply orb_false_iff in H. destruct H as [H _].
    destruct s as [|y [|z [|w s]]];
      cbn [PyStr.startswith append] in E, H;
      repeat match goal with
             | H : _ && _ = true |- _ =>
                 apply andb_true_iff in H; destruct H
             | H : Ascii.eqb _ _ = true |- _ =>
                 apply Ascii.eqb_eq in H; try discriminate H; subst
             end.
    rewrite !Ascii.eqb_refl in H. discriminate H.
  - now rewrite IH.
Qed.

(** [split] on a one-character separator. *)
Lemma split_cons (c x : ascii) (s : string) :
  PyStr.split (String x s) (String c "")
  = if Ascii.eqb c x
    then EmptyString :: PyStr.split s (String c "")
    else match PyStr.split s (String c "") with
         | h :: t => String x h :: t
         | [] => [String x EmptyString]
         end.
Proof.
  unfold PyStr.split. simpl. rewrite andb_true_r. reflexivity.
Qed.

Lemma split_nonempty (c : ascii) (s : string) :
  PyStr.split s (String c "") <> [].
Proof.
  induction s as [|x s IH]; [discriminate|].
  rewrite split_cons. destruct (Ascii.eqb c x); [discriminate|].
  destruct (PyStr.split s (String c "")); discriminate.
Qed.

Lemma split_absent (c : ascii) (s : string) :
  avoids c s -> PyStr.split s (String c "") = [s].
Proof.
  induction s as [|x s IH]; intros H; [reflexivity|].
  destruct H as [Hx Hs]. rewrite split_cons, (IH Hs).
  destruct (Ascii.eqb_spec c x); [congruence | reflexivity].
Qed.

Lemma split_app_sep (c : ascii) (a b : string) :
  PyStr.split (a ++ String c b) (String c "")
  = (PyStr.split a (String c "") ++ PyStr.split b (String c ""))%list.
Proof.
  induction a as [|x a IH].
  - simpl. rewrite split_cons, Ascii.eqb_refl. reflexivity.
  - change (String x a ++ String c b) with (String x (a ++ String c b)).
    rewrite !split_cons, IH. destruct (Ascii.eqb c x); [reflexivity|].
    pose proof (split_nonempty c a).
    destruct (PyStr.split a (String c "")); [congruence | reflexivity].
Qed.

(** The last piece of a text followed by a text without separator. *)
Lemma split_app_absent (c : ascii) (a b : string) :
  avoids c b ->
  exists front piece,
    PyStr.split (a ++ b) (String c "") = (front ++ [(piece ++ b)%string])%list.
Proof.
  intros Hb. induction a as [|x a IH].
  - exists [], "". simpl. now apply split_absent.
  - destruct IH as [front [piece E]].
    change (String x a ++ b) with (String x (a ++ b)).
    rewrite split_cons, E. destruct (Ascii.eqb c x).
    + exists (EmptyString :: front), piece. reflexivity.
    + destruct front as [|h front]; simpl.
      * exists [], (String x piece). reflexivity.
      * exists (String x h :: front), piece. reflexivity.
Qed.

Lemma getitem_neg_last {A : Type} (l : list A) (x : A) :
  PyStr.getitem_neg (l ++ [x]) 1 = Some x.
Proof. unfold PyStr.getitem_neg. now rewrite rev_app_distr. Qed.

Lemma getitem_neg_before_last {A : Type} (l : list A) (x y : A) :
  PyStr.getitem_neg (l ++ [x; y]) 2 = Some x.
Proof. unfold PyStr.getitem_neg. now rewrite rev_app_distr. Qed.

End UrlTransform.

(** X19: where the page URL is right.  For a remote URL that holds
    [github.com] and ends with [/owner/repo] or [:owner/repo], with or
    without the suffix [.git], whose owner and repository names hold no
    [.git] inside (and no [/], nor [:] in the owner), the announced URL is
    [https://owner.github.io/repo/], followed by the two notes. *)
Lemma announce_pages_url_plain (pre : string) (sep : ascii) (owner repo suffix : string)
    (st : state) :
  sep = "/"%char \/ sep = ":"%char ->
  suffix = "" \/ suffix = ".git" ->
  avoids "/" owner -> avoids ":" owner -> PyStr.contains ".git" owner = false ->
  avoids "/" repo -> PyStr.contains ".git" repo = false ->
  PyStr.contains "github.com" (pre ++ String sep (owner ++ "/" ++ repo ++ suffix)) = true ->
  announce_pages_url (pre ++ String sep (owner ++ "/" ++ repo ++ suffix)) st
  = (Value tt,
     mkState
       (deployment_log st ++
          [ site_entry ("https://" ++ owner ++ ".github.io/" ++ repo ++ "/");
            (nl ++ "⚠️ Note: First deployment may take 1-2 minutes")%string;
            "⚠️ Make sure GitHub Pages is enabled in repo settings!" ])%list
       (trace st)).
Proof.
  intros Hsep Hsuf Ho1 Ho2 Ho3 Hr1 Hr2 Hgh.
  unfold announce_pages_url. rewrite Hgh.
  assert (Hgit : forall c, c = "/"%char \/ c = ":"%char -> avoids c ".git").
  { intros c [-> | ->]; simpl; repeat split; discriminate. }
  assert (ER : PyStr.replace (pre ++ String sep (owner ++ "/" ++ repo ++ suffix)) ".git" ""
               = (PyStr.replace_from ".git" "" 0 pre ++ String sep owner) ++ String "/" repo).
  { unfold PyStr.replace.
    rewrite (replace_from_app_char ".git" "" sep) by
      (try discriminate; try (apply Hgit; exact Hsep); lia).
    change (owner ++ "/" ++ repo ++ suffix) with (owner ++ String "/" (repo ++ suffix)).
    rewrite (replace_from_app_char ".git" "" "/") by
      (try discriminate; try (apply Hgit; now left); lia).
    rewrite (replace_from_absent _ _ owner Ho3).
    assert (Es : PyStr.replace_from ".git" "" 0 (repo ++ suffix) = repo).
    { destruct Hsuf as [-> | ->].
      - rewrite append_nil_r. now apply replace_from_absent.
      - now apply replace_git_suffix. }
    rewrite Es, append_assoc. reflexivity. }
  rewrite ER. clear ER.
  rewrite split_app_sep, (split_absent _ _ Hr1).
  assert (EX : exists front owner_part,
             PyStr.split (PyStr.replace_from ".git" "" 0 pre ++ String sep owner)
               (String "/" "") = (front ++ [owner_part])%list /\
             PyStr.getitem_neg (PyStr.split owner_part ":") 1 = Some owner).
  { destruct Hsep as [-> | ->].
    - exists (PyStr.split (PyStr.replace_from ".git" "" 0 pre) (String "/" "")), owner.
      split; [rewrite split_app_sep, (split_absent _ _ Ho1); reflexivity|].
      rewrite (split_absent _ _ Ho2). reflexivity.
    - destruct (split_app_absent "/" (PyStr.replace_from ".git" "" 0 pre)
                  (String ":" owner)) as [front [piece E]].
      { split; [discriminate | exact Ho1]. }
      exists front, (piece ++ String ":" owner). split; [exact E|].
      rewrite split_app_sep, (split_absent _ _ Ho2).
      apply getitem_neg_last. }
  destruct EX as [front [owner_part [E1 E2]]]. rewrite E1, <- app_assoc.
  change ([owner_part] ++ [repo])%list with [owner_part; repo].
  assert (EL : (2 <=? List.length (front ++ [owner_part; repo]))%nat = true).
  { apply Nat.leb_le. rewrite length_app. simpl. lia. }
  rewrite EL. unfold getitem.
  rewrite getitem_neg_before_last.
  unfold bind at 1. unfold ret at 1.
  rewrite E2. unfold bind at 1. unfold ret at 1.
  change (front ++ [owner_part; repo])%list with (front ++ [owner_part] ++ [repo])%list.
  rewrite app_assoc, getitem_neg_last.
  unfold bind, ret, log_append. simpl. rewrite <- !app_assoc. reflexivity.
Qed.

Example pages_url_https :
  fst (announce_pages_url "https://github.com/alice/site.git" initial_state) = Value tt /\
  log_of (announce_pages_url "https://github.com/alice/site.git" initial_state)
  = [ site_entry "https://alice.github.io/site/";
      (nl ++ "⚠️ Note: First deployment may take 1-2 minutes")%string;
      "⚠️ Make sure GitHub Pages is enabled in repo settings!" ].
Proof. split; reflexivity. Qed.

Example pages_url_ssh :
  log_of (announce_pages_url "git@github.com:alice/site.git" initial_state)
  = [ site_entry "https://alice.github.io/site/";
      (nl ++ "⚠️ Note: First deployment may take 1-2 minutes")%string;
      "⚠️ Make sure GitHub Pages is enabled in repo settings!" ].
Proof. reflexivity. Qed.

Lemma announce_pages_url_plain_witness :
  log_of (announce_pages_url "git@github.com:alice/site" initial_state)
  = [ site_entry "https://alice.github.io/site/";
      (nl ++ "⚠️ Note: First deployment may take 1-2 minutes")%string;
      "⚠️ Make sure GitHub Pages is enabled in repo settings!" ].
Proof.
  unfold log_of.
  rewrite (announce_pages_url_plain "git@github.com" ":" "alice" "site" "");
    try reflexivity; try (now left); try (now right);
    simpl; repeat split; discriminate.
Defined.

(** ** The missing remote *)

(** C6: in a run that gets to the repository check, when the working
    directory is not a repository, the initialization succeeds and the
    query for the remote [origin] fails, the run ends with the status
    [partial] and with instructions that hold the command
    [git remote add origin]; the query for the remote is the last thing the
    run attempts: nothing is staged, committed or pushed. *)
Theorem missing_remote_is_partial (env : DeployEnv) (data : option RequestData)
    (g p q : CompletedProcess) :
  In (Exec cmd_rev_parse) (trace_of (deploy_to_github env data)) ->
  git_rev_parse env = Completed g -> returncode g <> 0%Z ->
  git_init env = Completed p -> returncode p = 0%Z ->
  git_remote_check env = Completed q -> returncode q <> 0%Z ->
  (exists l,
     response_of (deploy_to_github env data)
     = Some (mkResult "partial" "Files created but Git remote not configured"
               (Some l) (Some remote_instructions) None)) /\
  PyStr.contains "add origin" remote_instructions = true /\
  PyStr.contains "git remote add origin https://github.com/" remote_instructions = true /\
  (exists acts,
     trace_of (deploy_to_github env data)
     = (acts ++ [Exec cmd_rev_parse; Exec cmd_init; Exec cmd_remote])%list /\
     Forall local_action acts) /\
  ~ In (Exec cmd_add) (trace_of (deploy_to_github env data)) /\
  ~ In (Exec cmd_commit) (trace_of (deploy_to_github env data)) /\
  ~ In (Exec cmd_push) (trace_of (deploy_to_github env data)).
Proof.
  intros HIn Hg Hgrc Hp Hprc Hq Hqrc.
  assert (HT : ~ local_action (Exec cmd_rev_parse)) by not_in_runs.
  destruct (reaches_publish env data _ HT HIn) as [st [_ [_ [E F]]]].
  apply Z.eqb_neq in Hgrc, Hqrc. apply Z.eqb_eq in Hprc.
  assert (R : deploy_to_github env data
              = (Return (mkResult "partial" "Files created but Git remote not configured"
                           (Some (deployment_log (announced st)
                                    ++ ["✅ Initialized Git repository"])%list)
                           (Some remote_instructions) None),
                 mkState (deployment_log (announced st)
                            ++ ["✅ Initialized Git repository"])%list
                   (trace st ++ [Exec cmd_rev_parse; Exec cmd_init; Exec cmd_remote])%list)).
  { rewrite E, guarded_publish, guarded_bind.
    unfold ensure_repository. unfold_handler. simpl.
    rewrite Hg. simpl. rewrite Hgrc. simpl.
    rewrite Hp. simpl. rewrite Hprc. simpl.
    rewrite Hq. simpl. rewrite Hqrc. simpl.
    rewrite <- !app_assoc. reflexivity. }
  rewrite R. unfold response_of, trace_of. simpl fst. simpl snd. simpl trace.
  split; [eexists; reflexivity|].
  split; [reflexivity|]. split; [reflexivity|].
  split; [exists (trace st); auto|].
  assert (N : forall cmd, ~ local_action (Exec cmd) ->
                ~ In (Exec cmd) [Exec cmd_rev_parse; Exec cmd_init; Exec cmd_remote] ->
                ~ In (Exec cmd) (trace st ++ [Exec cmd_rev_parse; Exec cmd_init;
                                              Exec cmd_remote])%list).
  { intros cmd H1 H2 H. apply in_app_or in H. destruct H as [H | H].
    - exact (not_local_in _ _ H1 F H).
    - exact (H2 H). }
  repeat split; apply N; not_in_runs.
Qed.

Lemma missing_remote_is_partial_witness :
  (exists l,
     response_of (deploy_to_github env_no_remote (request hello true))
     = Some (mkResult "partial" "Files created but Git remote not configured"
               (Some l) (Some remote_instructions) None)) /\
  PyStr.contains "add origin" remote_instructions = true /\
  PyStr.contains "git remote add origin https://github.com/" remote_instructions = true /\
  (exists acts,
     trace_of (deploy_to_github env_no_remote (request hello true))
     = (acts ++ [Exec cmd_rev_parse; Exec cmd_init; Exec cmd_remote])%list /\
     Forall local_action acts) /\
  ~ In (Exec cmd_add) (trace_of (deploy_to_github env_no_remote (request hello true))) /\
  ~ In (Exec cmd_commit) (trace_of (deploy_to_github env_no_remote (request hello true))) /\
  ~ In (Exec cmd_push) (trace_of (deploy_to_github env_no_remote (request hello true))).
Proof.
  apply (missing_remote_is_partial env_no_remote (request hello true)
           (mkCompleted 128 ""
              "fatal: not a git repository (or any of the parent directories): .git")
           (mkCompleted 0 "" "")
           (mkCompleted 2 "" "error: No such remote 'origin'")).
  - vm_compute. tauto.
  - reflexivity.
  - discriminate.
  - reflexivity.
  - reflexivity.
  - reflexivity.
  - discriminate.
Defined.

(** ** The page URL *)

(** C8 fails on the code for a repository whose name holds [.git] inside:
    every occurrence of [.git] is removed from the remote URL, not only a
    trailing suffix.  For the remote
    [https://github.com/alice/alice.github.io.git] the announced URL is
    [https://alice.github.io/alicehub.io/], and not
    [https://alice.github.io/alice.github.io/]. *)
Theorem pages_url_inner_git :
  git_push env_user_page = exited 0 "" "" /\
  git_remote_result env_user_page
  = exited 0 ("https://github.com/alice/alice.github.io.git" ++ nl) "" /\
  exists l,
    response_of (deploy_to_github env_user_page (request hello true))
    = Some (mkResult "success" "Automatically deployed to GitHub Pages!"
              (Some l) None None) /\
    In (site_entry "https://alice.github.io/alicehub.io/") l /\
    ~ In (site_entry "https://alice.github.io/alice.github.io/") l.
Proof.
  split; [reflexivity|]. split; [reflexivity|].
  eexists. split; [vm_compute; reflexivity|].
  split.
  - vm_compute. tauto.
  - vm_compute. intros H.
    repeat (destruct H as [H | H]; try discriminate H). exact H.
Qed.

(** ** The scenarios of the specification, run on sample hosts *)

Example execute_hello :
  response_of (deploy_code exec_ok (request hello true))
  = Some ("Execution Successful:" ++ nl ++ nl ++ "hi" ++ nl).
Proof. reflexivity. Qed.

Example execute_timeout :
  response_of (deploy_code exec_timeout (request "import time; time.sleep(60)" true))
  = Some "Execution Failed (Timeout): The code took too long to run.".
Proof. reflexivity. Qed.

Example execute_no_code :
  response_of (deploy_code exec_ok None)
  = Some "Error: No code provided for execution.".
Proof. reflexivity. Qed.

Example publish_document_verbatim :
  In (WriteFile "docs/index.html" "<html><body>ok</body></html>")
    (trace_of (deploy_to_github env_document_output (request hello true))).
Proof. vm_compute. tauto. Qed.

Example publish_success :
  response_of (deploy_to_github env_ok (request hello true))
  = Some (mkResult "success" "Automatically deployed to GitHub Pages!"
            (Some [ "✅ Created /docs directory";
                    "✅ Saved Python code";
                    "✅ Created HTML wrapper";
                    "✅ Created README.md";
                    (nl ++ "🔄 Starting automated Git deployment...")%string;
                    "✅ Added files to Git";
                    "✅ Committed changes";
                    "✅ Pushed to GitHub successfully!";
                    (nl ++ "🎉 DEPLOYMENT COMPLETE!")%string;
                    site_entry "https://alice.github.io/site/";
                    (nl ++ "⚠️ Note: First deployment may take 1-2 minutes")%string;
                    "⚠️ Make sure GitHub Pages is enabled in repo settings!" ])
            None None)
  /\ trace_of (deploy_to_github env_ok (request hello true))
     = [ MkDir "docs";
         WriteFile "docs/generated_code.py" hello;
         Exec ["python"; "docs/generated_code.py"];
         WriteFile "docs/index.html" (html_content ("hi" ++ nl));
         WriteFile "docs/README.md" readme_content;
         Exec cmd_rev_parse; Exec cmd_add; Exec cmd_commit; Exec cmd_push;
         Exec cmd_remote ].
Proof. split; reflexivity. Qed.

Example publish_unchanged_still_pushes :
  In "ℹ️ No changes to commit"
    (log_of (deploy_to_github env_unchanged (request hello true))) /\
  In (Exec cmd_push) (trace_of (deploy_to_github env_unchanged (request hello true))).
Proof. split; vm_compute; tauto. Qed.

Example publish_rejected :
  exists l,
    response_of (deploy_to_github env_push_rejected (request hello true))
    = Some (mkResult "partial" "Files created and committed, but push failed"
              (Some l) None
              (Some " ! [rejected]        main -> main (fetch first)")) /\
    In pull_tip l.
Proof. eexists. split; [reflexivity|]. vm_compute. tauto. Qed.

Example publish_default_is_automatic :
  request_auto_push None = true /\
  request_auto_push (Some (mkRequest (Some hello) None)) = true.
Proof. split; reflexivity. Qed.

(** ** The Generate operation *)

Section StripFacts.





End StripFacts.

(** X1: without a prompt (the body is a falsy JSON value, the JSON object
    has no [prompt] key, or the prompt is the empty text) the Generate
    operation asks for one and makes no call on the completion client: the
    list of the calls is left as it was. *)
Theorem generate_code_without_prompt (api : llm_outcome) (data : option PromptData)
    (calls : list ChatRequest) :
  request_prompt data = "" ->
  generate_code_body api data calls = (mkCode "" "Please enter a prompt.", calls) /\
  generate_code api data = (mkCode "" "Please enter a prompt.", []).
Proof.
  intros H. unfold generate_code, generate_code_body. rewrite H. split; reflexivity.
Qed.

Lemma generate_code_without_prompt_witness :
  generate_code (Replied [Some "print(1)"]) (Some (mkPrompt None))
  = (mkCode "" "Please enter a prompt.", []).
Proof.
  apply (generate_code_without_prompt (Replied [Some "print(1)"])
           (Some (mkPrompt None)) []).
  reflexivity.
Defined.

(** The body of the route once the prompt is there. *)
Lemma generate_code_body_prompted (api : llm_outcome) (data : option PromptData)
    (calls : list ChatRequest) :
  request_prompt data <> "" ->
  generate_code_body api data calls
  = (let generated_code := fst (generate_code_from_llm api (request_prompt data) calls) in
     mkCode generated_code
       (if PyStr.startswith generated_code "Error:"
        then "API Error" else "Code generated successfully."),
     (calls ++ [mkChat "gpt-4o-mini" system_prompt (request_prompt data)])%list).
Proof.
  intros H. unfold generate_code_body. rewrite (truthy_nonempty _ H).
  unfold generate_code_from_llm, chat_completions_create.
  cbv beta iota zeta delta [negb fst].
  match goal with
  | |- context [PyStr.startswith ?g "Error:"] =>
      destruct (PyStr.startswith g "Error:"); reflexivity
  end.
Qed.

(** X2: with a prompt, the Generate operation calls
    [client.chat.completions.create] exactly once, whatever the client
    answers: for the model [gpt-4o-mini], with the fixed system message and
    with the prompt as the user message, unchanged; the call is added
    behind the calls made before.  The message of the response is
    [API Error] exactly when the returned code starts with [Error:], and
    [Code generated successfully.] otherwise. *)
Theorem generate_code_message (api : llm_outcome) (data : option PromptData)
    (calls : list ChatRequest) :
  request_prompt data <> "" ->
  snd (generate_code_body api data calls)
  = (calls ++ [mkChat "gpt-4o-mini" system_prompt (request_prompt data)])%list /\
  snd (generate_code api data)
  = [mkChat "gpt-4o-mini" system_prompt (request_prompt data)] /\
  (resp_message (fst (generate_code api data)) = "API Error" <->
   exists rest, resp_code (fst (generate_code api data)) = "Error:" ++ rest) /\
  (resp_message (fst (generate_code api data)) = "API Error" \/
   resp_message (fst (generate_code api data)) = "Code generated successfully.").
Proof.
  intros H.
  set (g := fst (generate_code_from_llm api (request_prompt data) [])).
  assert (Ec : resp_code (fst (generate_code api data)) = g).
  { unfold generate_code. rewrite (generate_code_body_prompted _ _ _ H). reflexivity. }
  assert (Em : resp_message (fst (generate_code api data))
               = if PyStr.startswith g "Error:"
                 then "API Error" else "Code generated successfully.").
  { unfold generate_code. rewrite (generate_code_body_prompted _ _ _ H). reflexivity. }
  split; [rewrite (generate_code_body_prompted _ _ _ H); reflexivity|].
  split; [unfold generate_code; rewrite (generate_code_body_prompted _ _ _ H);
          reflexivity|].
  rewrite Ec, Em. destruct (PyStr.startswith g "Error:") eqn:E.
  - split; [| now left]. split; [intros _; apply startswith_iff; exact E | reflexivity].
  - split; [| now right]. split; [discriminate|]. intros Hr.
    assert (E' : PyStr.startswith g "Error:" = true) by (apply startswith_iff; exact Hr).
    congruence.
Qed.

Lemma generate_code_message_witness :
  snd (generate_code (ApiFailed "Connection error.") (Some (mkPrompt (Some "count to one"))))
  = [mkChat "gpt-4o-mini" system_prompt "count to one"] /\
  snd (generate_code (Replied [Some "print(1)"]) (Some (mkPrompt (Some "count to one"))))
  = [mkChat "gpt-4o-mini" system_prompt "count to one"].
Proof.
  split.
  - apply (generate_code_message (ApiFailed "Connection error.")
             (Some (mkPrompt (Some "count to one"))) []). discriminate.
  - apply (generate_code_message (Replied [Some "print(1)"])
             (Some (mkPrompt (Some "count to one"))) []). discriminate.
Defined.

(** X3: whatever goes wrong with the completion (the call raises, the
    completion has no choice, the content of the first choice is null or
    empty), the response carries a code that starts with [Error:] and the
    message [API Error]. *)
Theorem generate_code_api_failure (api : llm_outcome) (data : option PromptData) :
  request_prompt data <> "" ->
  failed_completion api ->
  resp_message (fst (generate_code api data)) = "API Error" /\
  exists text, resp_code (fst (generate_code api data)) = "Error: " ++ text.
Proof.
  intros H Hbad. unfold generate_code.
  rewrite (generate_code_body_prompted _ _ _ H). cbv zeta. simpl fst.
  unfold generate_code_from_llm, chat_completions_create. simpl fst.
  destruct api as [[|[content|] rest] | msg]; simpl in *;
    try (split; [reflexivity | eauto]).
  subst content. simpl. eauto.
Qed.

Lemma generate_code_api_failure_witness :
  resp_message (fst (generate_code (ApiFailed "Connection error.")
                       (Some (mkPrompt (Some "count to one"))))) = "API Error" /\
  exists text,
    resp_code (fst (generate_code (ApiFailed "Connection error.")
                      (Some (mkPrompt (Some "count to one"))))) = "Error: " ++ text.
Proof.
  apply (generate_code_api_failure (ApiFailed "Connection error.")
           (Some (mkPrompt (Some "count to one")))).
  - discriminate.
  - exact I.
Defined.






(** ** What the stages return, and what they log *)

Section Returns.

Context {A : Type}.
Implicit Types (Q : DeploymentResult -> state -> Prop).

Lemma returns_ret Q (a : A) : returns Q (ret a).
Proof. intros st. exact I. Qed.

Lemma returns_raise Q (e : exn) : returns (A := A) Q (raise e).
Proof. intros st. exact I. Qed.

Lemma returns_return Q (r : DeploymentResult) :
  (forall st, Q r st) -> returns (A := A) Q (return_ r).
Proof. intros H st. apply H. Qed.

Lemma returns_bind {B : Type} Q (m : M DeploymentResult B)
    (k : B -> M DeploymentResult A) :
  returns Q m -> (forall b, returns Q (k b)) -> returns Q (bind m k).
Proof.
  intros Hm Hk st. unfold bind. specialize (Hm st).
  destruct (m st) as [[b | e | r] st1]; [apply Hk | exact I | exact Hm].
Qed.

Lemma returns_try_except Q (m : M DeploymentResult A)
    (h : exn -> M DeploymentResult A) :
  returns Q m -> (forall e, returns Q (h e)) -> returns Q (try_except m h).
Proof.
  intros Hm Hh st. unfold try_except. specialize (Hm st).
  destruct (m st) as [[a | e | r] st1]; [exact I | apply Hh | exact Hm].
Qed.

(** The response built from the log at the point of return. *)
Lemma returns_with_log Q (f : list string -> DeploymentResult) :
  (forall st, Q (f (deployment_log st)) st) ->
  returns (A := A) Q (bind get_log (fun l => return_ (f l))).
Proof. intros H st. apply H. Qed.

Lemma returns_weaken Q (Q' : DeploymentResult -> state -> Prop)
    (m : M DeploymentResult A) :
  (forall r st, Q r st -> Q' r st) -> returns Q m -> returns Q' m.
Proof.
  intros H Hm st. specialize (Hm st).
  destruct (m st) as [[a | e | r] st1]; auto.
Qed.

End Returns.

Lemma returns_log_append Q (entry : string) : returns Q (log_append entry).
Proof. intros st. exact I. Qed.

Lemma returns_file_op Q (a : action) (o : file_outcome) : returns Q (file_op a o).
Proof. intros st. unfold_handler. destruct o; exact I. Qed.

Lemma returns_subprocess_run Q (argv : list string) (check : bool)
    (timeout : option Z) (o : run_outcome) :
  returns Q (subprocess_run argv check timeout o).
Proof.
  intros st. unfold_handler. destruct o as [p | | |]; simpl; try exact I.
  destruct (check && negb (returncode p =? 0)%Z); exact I.
Qed.

Lemma returns_getitem {A : Type} Q (l : list A) (k : nat) : returns Q (getitem l k).
Proof. intros st. unfold getitem. destruct (PyStr.getitem_neg l k); exact I. Qed.

(** What a block returns is found along its syntax; the return sites are
    left as goals. *)
Ltac returns_sites :=
  repeat match goal with
    | |- returns _ (bind get_log (fun l => return_ _)) => apply returns_with_log
    | |- returns _ (bind _ _) => apply returns_bind; [| intros ?]
    | |- returns _ (file_op _ _) => apply returns_file_op
    | |- returns _ (subprocess_run _ _ _ _) => apply returns_subprocess_run
    | |- returns _ (log_append _) => apply returns_log_append
    | |- returns _ (getitem _ _) => apply returns_getitem
    | |- returns _ (ret _) => apply returns_ret
    | |- returns _ (raise _) => apply returns_raise
    | |- returns _ (if ?b then _ else _) => destruct b
    end.

(** The materialization, the staging and the URL synthesis never return
    from the handler. *)
Lemma materialize_returns Q (env : DeployEnv) (src : string) :
  returns Q (materialize env src).
Proof. unfold materialize. returns_sites. Qed.

Lemma stage_and_commit_returns Q (env : DeployEnv) :
  returns Q (stage_and_commit env).
Proof. unfold stage_and_commit. returns_sites. Qed.

Lemma announce_pages_url_returns Q (remote_url : string) :
  returns Q (announce_pages_url remote_url).
Proof. unfold announce_pages_url. returns_sites. Qed.

(** Every response of the handler body, and of the [except] clauses, has one
    of the three statuses and carries the whole log. *)
Lemma deploy_except_returns (e : exn) :
  returns (fun r st => valid_status r /\ log r = Some (deployment_log st))
    (deploy_except e).
Proof.
  unfold deploy_except, valid_status.
  destruct e; returns_sites; intros st; simpl; auto.
Qed.

Lemma deploy_body_returns (env : DeployEnv) (src : string) (auto_push : bool) :
  returns (fun r st => valid_status r /\ log r = Some (deployment_log st))
    (deploy_body env src auto_push).
Proof.
  unfold deploy_body, publish, ensure_repository, push_and_report, valid_status.
  apply returns_bind; [apply materialize_returns | intros _].
  destruct auto_push; returns_sites;
    try apply stage_and_commit_returns; try apply announce_pages_url_returns;
    intros st; simpl; auto.
Qed.

(** A body that never falls through is always answered. *)
Lemma ends_bind {A B : Type} (m : M DeploymentResult A) (k : A -> M DeploymentResult B) :
  (forall a, ends (k a)) -> ends (bind m k).
Proof.
  intros Hk st. unfold bind. destruct (m st) as [[a | e | r] st1]; simpl;
    [apply Hk | exact I | exact I].
Qed.

Lemma ends_return {A : Type} (r : DeploymentResult) : ends (A := A) (return_ r).
Proof. intros st. exact I. Qed.

Ltac ends_sites :=
  repeat match goal with
    | |- ends (bind _ _) => apply ends_bind; intros ?
    | |- ends (if ?b then _ else _) => destruct b
    | |- ends (return_ _) => apply ends_return
    end.

Lemma push_and_report_ends (env : DeployEnv) : ends (push_and_report env).
Proof. unfold push_and_report. ends_sites. Qed.

Lemma deploy_body_ends (env : DeployEnv) (src : string) (auto_push : bool) :
  ends (deploy_body env src auto_push).
Proof.
  unfold deploy_body. apply ends_bind. intros _. destruct auto_push.
  - unfold publish. do 3 (apply ends_bind; intros _). apply push_and_report_ends.
  - ends_sites.
Qed.

Lemma guarded_responds (m : M DeploymentResult unit) (st : state) :
  ends m -> exists r st1, guarded m st = (Return r, st1).
Proof.
  intros H. specialize (H st). unfold guarded, try_except.
  destruct (m st) as [[a | e | r] st1]; simpl in H; [destruct H | | eauto].
  destruct e; do 2 eexists; reflexivity.
Qed.

Section Logs.

Context {R : Type}.

Lemma logs_ret {A : Type} (a : A) : logs (ret (R := R) a).
Proof. intros st. exists []. simpl. now rewrite app_nil_r. Qed.

Lemma logs_raise {A : Type} (e : exn) : logs (raise (R := R) (A := A) e).
Proof. intros st. exists []. simpl. now rewrite app_nil_r. Qed.

Lemma logs_return {A : Type} (r : R) : logs (return_ (A := A) r).
Proof. intros st. exists []. simpl. now rewrite app_nil_r. Qed.

Lemma logs_log_append (entry : string) : logs (log_append (R := R) entry).
Proof. intros st. exists [entry]. reflexivity. Qed.

Lemma logs_get_log : logs (get_log (R := R)).
Proof. intros st. exists []. simpl. now rewrite app_nil_r. Qed.

Lemma logs_perform (a : action) : logs (perform (R := R) a).
Proof. intros st. exists []. simpl. now rewrite app_nil_r. Qed.

Lemma logs_bind {A B : Type} (m : M R A) (k : A -> M R B) :
  logs m -> (forall a, logs (k a)) -> logs (bind m k).
Proof.
  intros Hm Hk st. unfold bind. destruct (Hm st) as [es1 E1].
  destruct (m st) as [[a | e | r] st1]; simpl in E1.
  - destruct (Hk a st1) as [es2 E2]. exists (es1 ++ es2)%list.
    now rewrite E2, E1, app_assoc.
  - now exists es1.
  - now exists es1.
Qed.

Lemma logs_try_except {A : Type} (m : M R A) (h : exn -> M R A) :
  logs m -> (forall e, logs (h e)) -> logs (try_except m h).
Proof.
  intros Hm Hh st. unfold try_except. destruct (Hm st) as [es1 E1].
  destruct (m st) as [[a | e | r] st1]; simpl in E1.
  - now exists es1.
  - destruct (Hh e st1) as [es2 E2]. exists (es1 ++ es2)%list.
    now rewrite E2, E1, app_assoc.
  - now exists es1.
Qed.

Lemma logs_file_op (a : action) (o : file_outcome) : logs (file_op (R := R) a o).
Proof.
  apply logs_bind; [apply logs_perform | intros _].
  destruct o; [apply logs_ret | apply logs_raise].
Qed.

Lemma logs_subprocess_run (argv : list string) (check : bool)
    (timeout : option Z) (o : run_outcome) :
  logs (subprocess_run (R := R) argv check timeout o).
Proof.
  apply logs_bind; [apply logs_perform | intros _].
  destruct o as [p | | |]; try apply logs_raise.
  destruct (check && negb (returncode p =? 0)%Z); [apply logs_raise | apply logs_ret].
Qed.

Lemma logs_getitem {A : Type} (l : list A) (k : nat) : logs (getitem (R := R) l k).
Proof.
  unfold getitem. destruct (PyStr.getitem_neg l k); [apply logs_ret | apply logs_raise].
Qed.

End Logs.

Ltac log_frame :=
  repeat match goal with
    | |- logs (bind _ _) => apply logs_bind; [| intros ?]
    | |- logs (file_op _ _) => apply logs_file_op
    | |- logs (subprocess_run _ _ _ _) => apply logs_subprocess_run
    | |- logs (log_append _) => apply logs_log_append
    | |- logs get_log => apply logs_get_log
    | |- logs (getitem _ _) => apply logs_getitem
    | |- logs (ret _) => apply logs_ret
    | |- logs (raise _) => apply logs_raise
    | |- logs (return_ _) => apply logs_return
    | |- logs (if ?b then _ else _) => destruct b
    end.

Lemma announce_pages_url_logs (remote_url : string) :
  logs (announce_pages_url remote_url).
Proof. unfold announce_pages_url. log_frame. Qed.

Lemma publish_logs (env : DeployEnv) : logs (publish env).
Proof.
  unfold publish, ensure_repository, stage_and_commit, push_and_report.
  log_frame; apply announce_pages_url_logs.
Qed.

Lemma deploy_except_logs (e : exn) : logs (deploy_except e).
Proof. unfold deploy_except. destruct e; log_frame. Qed.

Lemma guarded_logs (m : M DeploymentResult unit) : logs m -> logs (guarded m).
Proof.
  intros H. apply logs_try_except; [exact H | apply deploy_except_logs].
Qed.

(** The materialization on a host that lets it through. *)
Lemma materialize_done (env : DeployEnv) (src : string) (st : state)
    (p : CompletedProcess) :
  mkdir_docs env = Written ->
  write_code env = Written ->
  run_code env = Completed p ->
  write_index env = Written ->
  write_readme env = Written ->
  materialize env src st
  = (Value tt,
     mkState
       (deployment_log st ++
          [ "✅ Created /docs directory"; "✅ Saved Python code";
            if looks_like_html (chosen_output p)
            then "✅ Generated HTML page" else "✅ Created HTML wrapper";
            "✅ Created README.md" ])%list
       (trace st ++
          [ MkDir GITHUB_PAGES_DIR; WriteFile code_file src; Exec cmd_python;
            WriteFile index_file (entry_document (chosen_output p));
            WriteFile readme_file readme_content ])%list).
Proof.
  intros H1 H2 H3 H4 H5. unfold materialize, entry_document. unfold_handler.
  rewrite H1, H2, H3. simpl.
  destruct (looks_like_html (chosen_output p)); simpl; rewrite H4; simpl;
    rewrite H5; simpl; rewrite <- !app_assoc; reflexivity.
Qed.

(** ** The response of the Publish operation *)

(** X6: for a body that is a JSON object or a falsy value, and a host whose
    calls all come back, by returning or by raising, the handler ends with
    a response.  Every exception raised inside the [try] (by the directory
    or a write, by the run of the code, by a git command, by
    [check=True] of [git init], by an index of the URL synthesis) is caught
    by one of the two [except] clauses, and no path of the body ends
    without [return].  The status of the response is one of [success],
    [partial] and [error], and, when code was given, its [log] is the whole
    log of the run, up to the last entry; without code the response has no
    [log] at all. *)
Theorem deploy_always_responds (env : DeployEnv) (data : option RequestData) :
  exists r,
    response_of (deploy_to_github env data) = Some r /\
    valid_status r /\
    log r = if PyStr.truthy (request_code data)
            then Some (log_of (deploy_to_github env data))
            else None.
Proof.
  destruct (request_code data) as [|c s] eqn:Hc.
  - unfold deploy_to_github. rewrite Hc. simpl. eexists.
    split; [reflexivity|]. split; [right; right |]; reflexivity.
  - assert (Hne : request_code data <> "") by (rewrite Hc; discriminate).
    rewrite (deploy_to_github_nonempty _ _ Hne), Hc.
    set (body := deploy_body env (String c s) (request_auto_push data)).
    destruct (guarded_responds body initial_state (deploy_body_ends _ _ _))
      as [r [st1 E]].
    pose proof (returns_try_except _ body deploy_except
                  (deploy_body_returns _ _ _) deploy_except_returns initial_state) as H.
    fold (guarded body) in H. rewrite E in H. destruct H as [Hs Hl].
    exists r. unfold response_of, log_of. rewrite E. simpl. auto.
Qed.

(** X7: the entries of the materialization stay at the front of the log:
    once the host let the materialization through, the log of the run, and
    so of the response, starts with its four entries in their order, and the
    later stages only add behind them. *)
Theorem materialization_entries_stay (env : DeployEnv) (data : option RequestData) :
  request_code data <> "" ->
  materialized env ->
  exists third later,
    log_of (deploy_to_github env data)
    = ([ "✅ Created /docs directory"; "✅ Saved Python code"; third;
         "✅ Created README.md" ] ++ later)%list /\
    (third = "✅ Generated HTML page" \/ third = "✅ Created HTML wrapper").
Proof.
  intros Hc [H1 [H2 [[p H3] [H4 H5]]]].
  unfold log_of. rewrite (deploy_to_github_nonempty _ _ Hc). unfold deploy_body.
  rewrite guarded_bind.
  assert (L : logs (guarded (if request_auto_push data
                             then publish env
                             else l <- get_log ;;
                                  return_ (mkResult "success" "Files created successfully"
                                             (Some l) (Some manual_instructions) None)))).
  { apply guarded_logs. destruct (request_auto_push data);
      [apply publish_logs | log_frame]. }
  rewrite (materialize_done env _ initial_state p H1 H2 H3 H4 H5).
  match goal with
  | |- context [guarded ?m ?st] => destruct (L st) as [later E]; rewrite E
  end.
  simpl. eexists. exists later. split; [reflexivity|].
  destruct (looks_like_html (chosen_output p)); auto.
Qed.

Lemma materialization_entries_stay_witness :
  exists third later,
    log_of (deploy_to_github env_ok (request hello true))
    = ([ "✅ Created /docs directory"; "✅ Saved Python code"; third;
         "✅ Created README.md" ] ++ later)%list /\
    (third = "✅ Generated HTML page" \/ third = "✅ Created HTML wrapper").
Proof.
  apply (materialization_entries_stay env_ok (request hello true)).
  - discriminate.
  - unfold materialized. simpl. repeat split. eexists. reflexivity.
Defined.

(** ** Stepping through the calls of a stage *)

Lemma subprocess_run_result {R : Type} (argv : list string) (check : bool)
    (timeout : option Z) (o : run_outcome) (st : state) :
  subprocess_run (R := R) argv check timeout o st
  = (match o with
     | Completed p =>
         if check && negb (returncode p =? 0)%Z
         then Raise (CalledProcessError argv (returncode p) (stderr p))
         else Value p
     | Expired => Raise (TimeoutExpired argv timeout)
     | NotFound msg => Raise (FileNotFoundError msg)
     | LaunchError msg => Raise (OtherException msg)
     end,
     mkState (deployment_log st) (trace st ++ [Exec argv])).
Proof.
  unfold subprocess_run, bind, perform, ret, raise.
  destruct o as [p | | |]; try reflexivity.
  destruct (check && negb (returncode p =? 0)%Z); reflexivity.
Qed.

Lemma guarded_bind_assoc {A B : Type} (m : M DeploymentResult A)
    (k1 : A -> M DeploymentResult B) (k2 : B -> M DeploymentResult unit) (st : state) :
  guarded (bind (bind m k1) k2) st = guarded (bind m (fun a => bind (k1 a) k2)) st.
Proof.
  unfold guarded, try_except, bind. destruct (m st) as [[a | e | r] st1]; reflexivity.
Qed.

(** A call is in the trace as soon as it is attempted, whatever comes of
    it and of the rest of the body. *)
Lemma run_then (P : action -> Prop) (argv : list string) (check : bool)
    (timeout : option Z) (o : run_outcome)
    (k : CompletedProcess -> M DeploymentResult unit) (st : state) :
  (forall p, appends P (k p)) ->
  exists post,
    trace (snd (guarded (bind (subprocess_run argv check timeout o) k) st))
    = (trace st ++ Exec argv :: post)%list /\ Forall P post.
Proof.
  intros Hk. rewrite guarded_bind, subprocess_run_result.
  assert (V : forall p st1, trace st1 = (trace st ++ [Exec argv])%list ->
            exists post, trace (snd (guarded (k p) st1))
                         = (trace st ++ Exec argv :: post)%list /\ Forall P post).
  { intros p st1 E. destruct (guarded_appends P _ (Hk p) st1) as [acts [Ea F]].
    exists acts. rewrite Ea, E, <- app_assoc. auto. }
  assert (X : forall e st1, trace st1 = (trace st ++ [Exec argv])%list ->
            exists post, trace (snd (deploy_except e st1))
                         = (trace st ++ Exec argv :: post)%list /\ Forall P post).
  { intros e st1 E. exists []. rewrite deploy_except_trace, E. auto. }
  destruct o as [p | | |]; try (apply X; reflexivity).
  destruct (check && negb (returncode p =? 0)%Z);
    [apply X | apply V]; reflexivity.
Qed.

Lemma push_attempted (env : DeployEnv) (st : state) :
  exists post,
    trace (snd (guarded (push_and_report env) st))
    = (trace st ++ Exec cmd_push :: post)%list /\
    Forall (runs [cmd_push; cmd_remote]) post.
Proof.
  unfold push_and_report. apply run_then.
  intros p. frame; apply announce_pages_url_appends.
Qed.

Lemma stage_attempted (env : DeployEnv) (st : state) :
  exists post,
    trace (snd (guarded (stage_and_commit env ;; push_and_report env) st))
    = (trace st ++ Exec cmd_add :: post)%list /\
    Forall (runs [cmd_add; cmd_commit; cmd_push; cmd_remote]) post.
Proof.
  unfold stage_and_commit. rewrite guarded_bind_assoc. apply run_then.
  intros p. apply appends_bind.
  - frame.
  - intros _. eapply appends_weaken; [| apply push_and_report_appends].
    unfold runs. simpl. tauto.
Qed.

(** Whoever stages went through the repository check before. *)
Lemma reaches_stage (env : DeployEnv) (data : option RequestData) :
  In (Exec cmd_add) (trace_of (deploy_to_github env data)) ->
  exists st,
    deploy_to_github env data
    = guarded (stage_and_commit env ;; push_and_report env) st /\
    ~ In (Exec cmd_add) (trace st).
Proof.
  intros HIn.
  assert (HT : ~ local_action (Exec cmd_add)) by not_in_runs.
  destruct (reaches_publish env data _ HT HIn) as [st [_ [_ [E F]]]].
  unfold trace_of in HIn. rewrite E, guarded_publish in *. clear E.
  pose proof (not_local_in _ _ HT F) as N.
  assert (H1 : ~ runs [cmd_rev_parse; cmd_init; cmd_remote] (Exec cmd_add))
    by not_in_runs.
  destruct (guarded_step _ _ _ _ (announced st) (ensure_repository_appends env) H1 N HIn)
    as [[] [st1 [acts1 [_ [E2 [_ [_ N1]]]]]]].
  exists st1. split; [exact E2 | exact N1].
Qed.

(** The URL synthesis never raises: the two indexings are in range. *)
Lemma getitem_neg_in_range {A : Type} (l : list A) (k : nat) :
  1 <= k <= List.length l -> exists a, PyStr.getitem_neg l k = Some a.
Proof.
  intros [H1 H2]. destruct k as [|k]; [lia|]. unfold PyStr.getitem_neg.
  destruct (nth_error (rev l) k) as [a|] eqn:E; [now exists a|].
  apply nth_error_None in E. rewrite length_rev in E. lia.
Qed.

Lemma announce_pages_url_value (remote_url : string) (st : state) :
  exists es,
    announce_pages_url remote_url st
    = (Value tt, mkState (deployment_log st ++ es)%list (trace st)) /\
    (PyStr.contains "github.com" remote_url = false -> es = []).
Proof.
  assert (Z0 : forall st0 : state,
            st0 = mkState (deployment_log st0 ++ [])%list (trace st0)).
  { intros [l t]. simpl. now rewrite app_nil_r. }
  unfold announce_pages_url.
  destruct (PyStr.contains "github.com" remote_url).
  2:{ exists []. split; [| reflexivity]. unfold ret. now rewrite <- Z0. }
  set (parts := PyStr.split (PyStr.replace remote_url ".git" "") "/").
  destruct (2 <=? List.length parts)%nat eqn:L.
  2:{ exists []. split; [| discriminate]. unfold ret. now rewrite <- Z0. }
  apply Nat.leb_le in L.
  destruct (getitem_neg_in_range parts 2) as [owner_part E2]; [lia|].
  destruct (getitem_neg_in_range parts 1) as [repo E1]; [lia|].
  destruct (getitem_neg_in_range (PyStr.split owner_part ":") 1) as [username E3].
  { pose proof (split_nonempty ":" owner_part) as N.
    destruct (PyStr.split owner_part ":"); [congruence | simpl; lia]. }
  eexists. split; [| discriminate].
  unfold getitem, bind. rewrite E2. unfold ret at 1. rewrite E3. unfold ret at 1.
  rewrite E1. unfold ret, log_append. simpl. rewrite <- !app_assoc. reflexivity.
Qed.

(** ** After the push *)

(** The Push step on a push that exits with 0 and a remote query that comes
    back. *)
Lemma push_succeeded (env : DeployEnv) (st : state) (p q : CompletedProcess) :
  git_push env = Completed p ->
  returncode p = 0%Z ->
  git_remote_result env = Completed q ->
  exists es,
    guarded (push_and_report env) st
    = (Return (mkResult "success" "Automatically deployed to GitHub Pages!"
                 (Some (deployment_log st ++
                          "✅ Pushed to GitHub successfully!"
                          :: (nl ++ "🎉 DEPLOYMENT COMPLETE!")%string :: es)%list)
                 None None),
       mkState (deployment_log st ++
                  "✅ Pushed to GitHub successfully!"
                  :: (nl ++ "🎉 DEPLOYMENT COMPLETE!")%string :: es)%list
         (trace st ++ [Exec cmd_push; Exec cmd_remote])%list) /\
    (returncode q <> 0%Z \/
     PyStr.contains "github.com" (PyStr.strip (stdout q)) = false -> es = []).
Proof.
  intros Hp Hrc Hq. unfold push_and_report.
  rewrite guarded_bind, subprocess_run_result, Hp. simpl. rewrite Hrc. simpl.
  unfold guarded, try_except, bind at 1. unfold log_append at 1.
  unfold bind at 1. unfold log_append at 1.
  unfold bind at 1. rewrite subprocess_run_result, Hq. simpl.
  unfold bind at 1.
  destruct (returncode q =? 0)%Z eqn:Eq.
  - match goal with
    | |- context [announce_pages_url ?u ?s] =>
        destruct (announce_pages_url_value u s) as [es [E Hes]]; rewrite E
    end.
    exists es. simpl. rewrite <- !app_assoc. simpl. split; [reflexivity|].
    intros [H | H]; [apply Z.eqb_eq in Eq; contradiction | auto].
  - exists []. simpl. rewrite <- !app_assoc. simpl. split; reflexivity.
Qed.

(** What the Push step answers, by the answer of the host to the push. *)
Lemma push_stage_status (env : DeployEnv) (st : state) :
  exists r st1,
    guarded (push_and_report env) st = (Return r, st1) /\
    (status r = "success" ->
     exists p,
       git_push env = Completed p /\ returncode p = 0%Z /\
       In "✅ Pushed to GitHub successfully!" (log_entries r)).
Proof.
  destruct (git_push env) as [p | | msg | msg] eqn:Hp.
  - destruct (returncode p =? 0)%Z eqn:Hrc.
    + apply Z.eqb_eq in Hrc.
      destruct (git_remote_result env) as [q | | msg | msg] eqn:Hq.
      * destruct (push_succeeded env st p q Hp Hrc Hq) as [es [E _]].
        rewrite E. do 2 eexists. split; [reflexivity|]. intros _. exists p.
        repeat split; auto. unfold log_entries. simpl.
        apply in_or_app. right. now left.
      * unfold_handler. rewrite Hp. simpl. rewrite Hrc. simpl. rewrite Hq. simpl.
        do 2 eexists. split; [reflexivity | discriminate].
      * unfold_handler. rewrite Hp. simpl. rewrite Hrc. simpl. rewrite Hq. simpl.
        do 2 eexists. split; [reflexivity | discriminate].
      * unfold_handler. rewrite Hp. simpl. rewrite Hrc. simpl. rewrite Hq. simpl.
        do 2 eexists. split; [reflexivity | discriminate].
    + unfold_handler. rewrite Hp. simpl. rewrite Hrc. simpl.
      destruct (PyStr.contains "rejected" (PyStr.lower (stderr p))); simpl;
        [| destruct (PyStr.contains "could not read" (PyStr.lower (stderr p))
                     || PyStr.contains "authentication" (PyStr.lower (stderr p)));
           simpl];
        do 2 eexists; (split; [reflexivity | discriminate]).
  - unfold_handler. rewrite Hp. simpl. do 2 eexists. split; [reflexivity | discriminate].
  - unfold_handler. rewrite Hp. simpl. do 2 eexists. split; [reflexivity | discriminate].
  - unfold_handler. rewrite Hp. simpl. do 2 eexists. split; [reflexivity | discriminate].
Qed.

Lemma ensure_repository_returns (env : DeployEnv) :
  returns (fun r _ => status r = "partial") (ensure_repository env).
Proof. unfold ensure_repository. returns_sites. intros st. reflexivity. Qed.

Lemma deploy_except_status (e : exn) (st : state) :
  exists r st1, deploy_except e st = (Return r, st1) /\ status r = "error".
Proof. destruct e; do 2 eexists; split; reflexivity. Qed.

(** X8: in automatic mode the status [success] is only given after a push
    that was run and exited with 0; the log of the response then holds the
    entry of the push.  (A failed staging or commit is no obstacle, and
    no other path of the automatic mode ends with [success].) *)
Theorem success_means_pushed (env : DeployEnv) (data : option RequestData)
    (r : DeploymentResult) :
  request_auto_push data = true ->
  response_of (deploy_to_github env data) = Some r ->
  status r = "success" ->
  In (Exec cmd_push) (trace_of (deploy_to_github env data)) /\
  (exists p, git_push env = Completed p /\ returncode p = 0%Z) /\
  In "✅ Pushed to GitHub successfully!" (log_entries r).
Proof.
  intros Hap Hr Hs.
  assert (Hc : request_code data <> "").
  { intros Hc. unfold deploy_to_github in Hr. rewrite Hc in Hr. simpl in Hr.
    injection Hr as <-. discriminate Hs. }
  unfold trace_of. unfold response_of in Hr.
  rewrite (deploy_to_github_nonempty _ _ Hc), Hap in *. unfold deploy_body in *.
  assert (Stop : forall e st, fst (deploy_except e st) = Return r -> False).
  { intros e st H. destruct (deploy_except_status e st) as [r1 [st1 [E Es]]].
    rewrite E in H. simpl in H. injection H as ->. rewrite Hs in Es. discriminate. }
  rewrite guarded_bind in *.
  pose proof (materialize_returns (fun _ _ => False) env (request_code data)
                initial_state) as M1.
  destruct (materialize env (request_code data) initial_state) as [[[] | e | r0] st1];
    [| destruct (fst (deploy_except e st1)) eqn:X; try discriminate;
       exfalso; apply (Stop e st1); rewrite X; congruence
     | destruct M1].
  rewrite guarded_publish, guarded_bind in *.
  pose proof (ensure_repository_returns env (announced st1)) as M2.
  destruct (ensure_repository env (announced st1)) as [[[] | e | r0] st2];
    [| destruct (fst (deploy_except e st2)) eqn:X; try discriminate;
       exfalso; apply (Stop e st2); rewrite X; congruence
     | simpl in Hr; injection Hr as ->; rewrite Hs in M2; discriminate ].
  rewrite guarded_bind in *.
  pose proof (stage_and_commit_returns (fun _ _ => False) env st2) as M3.
  destruct (stage_and_commit env st2) as [[[] | e | r0] st3];
    [| destruct (fst (deploy_except e st3)) eqn:X; try discriminate;
       exfalso; apply (Stop e st3); rewrite X; congruence
     | destruct M3].
  destruct (push_attempted env st3) as [post [Et _]]. rewrite Et.
  split; [apply in_or_app; right; now left|].
  destruct (push_stage_status env st3) as [r1 [st4 [E H]]].
  rewrite E in Hr. simpl in Hr. injection Hr as ->.
  destruct (H Hs) as [p [H1 [H2 H3]]]. split; [exists p; auto | exact H3].
Qed.

Lemma success_means_pushed_witness :
  In (Exec cmd_push) (trace_of (deploy_to_github env_commit_fails (request hello true))) /\
  (exists p, git_push env_commit_fails = Completed p /\ returncode p = 0%Z).
Proof.
  destruct (response_of (deploy_to_github env_commit_fails (request hello true)))
    as [r|] eqn:Hr; [| vm_compute in Hr; discriminate Hr].
  destruct (success_means_pushed env_commit_fails (request hello true) r)
    as [H1 [H2 _]].
  - reflexivity.
  - exact Hr.
  - vm_compute in Hr. injection Hr as <-. reflexivity.
  - split; [exact H1 | exact H2].
Defined.

(** X9: once the push has exited with 0, the response depends on the query
    for the remote URL that follows.  If the query comes back, with whatever
    exit status, the status is [success], and the page URL is announced only
    if the query exited with 0 and the URL holds [github.com].  If the query
    raises, the status is [error], although the site was pushed: the log
    holds the entry of the push followed by the entry of the failure. *)
Theorem pushed_then_remote_query (env : DeployEnv) (data : option RequestData)
    (p : CompletedProcess) :
  In (Exec cmd_push) (trace_of (deploy_to_github env data)) ->
  git_push env = Completed p ->
  returncode p = 0%Z ->
  match git_remote_result env with
  | Completed q =>
      exists l es,
        response_of (deploy_to_github env data)
        = Some (mkResult "success" "Automatically deployed to GitHub Pages!"
                  (Some (l ++ "✅ Pushed to GitHub successfully!"
                           :: (nl ++ "🎉 DEPLOYMENT COMPLETE!")%string :: es)%list)
                  None None) /\
        (returncode q <> 0%Z \/
         PyStr.contains "github.com" (PyStr.strip (stdout q)) = false -> es = [])
  | Expired =>
      exists l,
        response_of (deploy_to_github env data)
        = Some (mkResult "error" "Deployment timed out"
                  (Some (l ++ [ "✅ Pushed to GitHub successfully!";
                                (nl ++ "🎉 DEPLOYMENT COMPLETE!")%string;
                                "❌ Operation timed out" ])%list)
                  None None)
  | NotFound msg | LaunchError msg =>
      exists l,
        response_of (deploy_to_github env data)
        = Some (mkResult "error" ("Deployment failed: " ++ msg)
                  (Some (l ++ [ "✅ Pushed to GitHub successfully!";
                                (nl ++ "🎉 DEPLOYMENT COMPLETE!")%string;
                                ("❌ Error: " ++ msg)%string ])%list)
                  None None)
  end.
Proof.
  intros HIn Hp Hrc. destruct (reaches_push env data HIn) as [st [E _]].
  rewrite E. clear E HIn.
  destruct (git_remote_result env) as [q | | msg | msg] eqn:Hq.
  - destruct (push_succeeded env st p q Hp Hrc Hq) as [es [E Hes]]. rewrite E.
    exists (deployment_log st), es. split; [reflexivity | exact Hes].
  - unfold_handler. rewrite Hp. simpl. rewrite Hrc. simpl. rewrite Hq. simpl.
    exists (deployment_log st). rewrite <- !app_assoc. reflexivity.
  - unfold_handler. rewrite Hp. simpl. rewrite Hrc. simpl. rewrite Hq. simpl.
    exists (deployment_log st). rewrite <- !app_assoc. reflexivity.
  - unfold_handler. rewrite Hp. simpl. rewrite Hrc. simpl. rewrite Hq. simpl.
    exists (deployment_log st). rewrite <- !app_assoc. reflexivity.
Qed.

Lemma pushed_then_remote_query_witness :
  exists l es,
    response_of (deploy_to_github env_ok (request hello true))
    = Some (mkResult "success" "Automatically deployed to GitHub Pages!"
              (Some (l ++ "✅ Pushed to GitHub successfully!"
                       :: (nl ++ "🎉 DEPLOYMENT COMPLETE!")%string :: es)%list)
              None None).
Proof.
  assert (HIn : In (Exec cmd_push) (trace_of (deploy_to_github env_ok (request hello true))))
    by (vm_compute; tauto).
  destruct (pushed_then_remote_query env_ok (request hello true)
              (mkCompleted 0 "" "") HIn eq_refl eq_refl) as [l [es [E _]]].
  exists l, es. exact E.
Defined.

(** ** Staging and commit *)

(** X10: a staging or a commit that exits with a non-zero status does not
    stop the run: the push is attempted all the same.  A failed commit
    leaves one entry in the log: the note [No changes to commit] when its
    standard output holds [nothing to commit] (in any case), and otherwise a
    warning with its standard error. *)
Theorem commit_failure_does_not_stop (env : DeployEnv) (data : option RequestData)
    (a c : CompletedProcess) :
  In (Exec cmd_add) (trace_of (deploy_to_github env data)) ->
  git_add env = Completed a ->
  git_commit env = Completed c ->
  In (Exec cmd_commit) (trace_of (deploy_to_github env data)) /\
  In (Exec cmd_push) (trace_of (deploy_to_github env data)) /\
  (returncode c <> 0%Z ->
   In (if PyStr.contains "nothing to commit" (PyStr.lower (stdout c))
       then "ℹ️ No changes to commit"
       else "⚠️ Commit warning: " ++ stderr c)
     (log_of (deploy_to_github env data))).
Proof.
  intros HIn Ha Hc.
  destruct (reaches_stage env data HIn) as [st [E N]].
  unfold trace_of, log_of. rewrite E. clear E HIn.
  rewrite guarded_bind.
  assert (S : exists entry,
            stage_and_commit env st
            = (Value tt,
               mkState (deployment_log st ++ ["✅ Added files to Git"; entry])%list
                 (trace st ++ [Exec cmd_add; Exec cmd_commit])%list) /\
            entry = if (returncode c =? 0)%Z then "✅ Committed changes"
                    else if PyStr.contains "nothing to commit" (PyStr.lower (stdout c))
                         then "ℹ️ No changes to commit"
                         else "⚠️ Commit warning: " ++ stderr c).
  { eexists. split; [| reflexivity]. unfold stage_and_commit.
    unfold bind at 1. rewrite subprocess_run_result, Ha. simpl.
    unfold bind at 1. unfold log_append at 1.
    unfold bind at 1. rewrite subprocess_run_result, Hc. simpl.
    destruct (returncode c =? 0)%Z; [| destruct (PyStr.contains _ _)];
      unfold log_append; simpl; rewrite <- !app_assoc; reflexivity. }
  destruct S as [entry [S He]]. rewrite S.
  assert (L : logs (guarded (push_and_report env))).
  { apply guarded_logs. unfold push_and_report. log_frame.
    apply announce_pages_url_logs. }
  match goal with
  | |- context [guarded (push_and_report env) ?s] =>
      destruct (push_attempted env s) as [post [Et _]];
      destruct (L s) as [es El]
  end.
  rewrite Et, El. simpl trace. simpl deployment_log.
  split; [apply in_or_app; left; apply in_or_app; right; simpl; auto|].
  split; [apply in_or_app; right; now left|].
  intros Hrc. apply Z.eqb_neq in Hrc. rewrite Hrc in He.
  apply in_or_app. left. apply in_or_app. right. rewrite He. simpl. auto.
Qed.

Lemma commit_failure_does_not_stop_witness :
  In (Exec cmd_push) (trace_of (deploy_to_github env_commit_fails (request hello true))) /\
  In "⚠️ Commit warning: fatal: unable to auto-detect email address"
    (log_of (deploy_to_github env_commit_fails (request hello true))).
Proof.
  assert (HIn : In (Exec cmd_add)
                  (trace_of (deploy_to_github env_commit_fails (request hello true))))
    by (vm_compute; tauto).
  destruct (commit_failure_does_not_stop env_commit_fails (request hello true)
              (mkCompleted 128 "" "fatal: pathspec 'docs/' did not match any files")
              (mkCompleted 128 "" "fatal: unable to auto-detect email address")
              HIn eq_refl eq_refl) as [_ [H1 H2]].
  split; [exact H1|]. apply H2. discriminate.
Defined.

(** ** The repository check *)

(** X11: when the working directory already is a repository, the run goes
    from the repository check straight to the staging: [git init] is never
    run, and the remote is not queried before the push, so that a missing
    remote is not noticed at this point. *)
Theorem existing_repository_skips_init (env : DeployEnv) (data : option RequestData)
    (g : CompletedProcess) :
  In (Exec cmd_rev_parse) (trace_of (deploy_to_github env data)) ->
  git_rev_parse env = Completed g ->
  returncode g = 0%Z ->
  (exists pre post,
     trace_of (deploy_to_github env data)
     = (pre ++ Exec cmd_rev_parse :: Exec cmd_add :: post)%list /\
     Forall local_action pre) /\
  ~ In (Exec cmd_init) (trace_of (deploy_to_github env data)).
Proof.
  intros HIn Hg Hrc.
  assert (HT : ~ local_action (Exec cmd_rev_parse)) by not_in_runs.
  destruct (reaches_publish env data _ HT HIn) as [st [_ [_ [E F]]]].
  assert (T : exists post,
            trace_of (deploy_to_github env data)
            = (trace st ++ Exec cmd_rev_parse :: Exec cmd_add :: post)%list /\
            Forall (runs [cmd_add; cmd_commit; cmd_push; cmd_remote]) post).
  { unfold trace_of. rewrite E, guarded_publish, guarded_bind.
    unfold ensure_repository. unfold bind at 1. rewrite subprocess_run_result, Hg.
    simpl. rewrite Hrc. simpl. unfold ret.
    match goal with
    | |- context [guarded _ ?s] => destruct (stage_attempted env s) as [post [Et Fp]]
    end.
    exists post. rewrite Et. simpl trace. rewrite <- app_assoc. auto. }
  destruct T as [post [T Fp]]. rewrite T.
  split; [exists (trace st), post; auto|].
  intros H. apply in_app_or in H. destruct H as [H | H].
  - revert H. apply not_local_in; [not_in_runs | exact F].
  - simpl in H. repeat (destruct H as [H | H]; try discriminate H).
    rewrite Forall_forall in Fp. apply Fp in H. unfold runs in H. simpl in H.
    repeat (destruct H as [H | H]; try discriminate H). exact H.
Qed.

Lemma existing_repository_skips_init_witness :
  ~ In (Exec cmd_init) (trace_of (deploy_to_github env_ok (request hello true))).
Proof.
  assert (HIn : In (Exec cmd_rev_parse)
                  (trace_of (deploy_to_github env_ok (request hello true))))
    by (vm_compute; tauto).
  exact (proj2 (existing_repository_skips_init env_ok (request hello true)
                  (mkCompleted 0 (".git" ++ nl) "") HIn eq_refl eq_refl)).
Defined.

(** X12: when the working directory is not a repository and [git init]
    exits with a non-zero status, the run ends there with the status
    [error] (not [partial]); the message names the command and its exit
    status, and neither the remote query nor the staging, the commit or the
    push is attempted. *)
Theorem init_failure_is_error (env : DeployEnv) (data : option RequestData)
    (g p : CompletedProcess) :
  In (Exec cmd_rev_parse) (trace_of (deploy_to_github env data)) ->
  git_rev_parse env = Completed g ->
  returncode g <> 0%Z ->
  git_init env = Completed p ->
  (0 < returncode p)%Z ->
  (exists l,
     response_of (deploy_to_github env data)
     = Some (mkResult "error"
               ("Deployment failed: Command '['git', 'init']' returned non-zero exit status "
                  ++ Z_to_string (returncode p) ++ ".")
               (Some l) None None)) /\
  exists pre,
    trace_of (deploy_to_github env data)
    = (pre ++ [Exec cmd_rev_parse; Exec cmd_init])%list /\
    Forall local_action pre.
Proof.
  intros HIn Hg Hgrc Hp Hprc.
  assert (HT : ~ local_action (Exec cmd_rev_parse)) by not_in_runs.
  destruct (reaches_publish env data _ HT HIn) as [st [_ [_ [E F]]]].
  apply Z.eqb_neq in Hgrc.
  assert (Hprc' : (returncode p =? 0)%Z = false) by (apply Z.eqb_neq; lia).
  assert (R : exists l,
            deploy_to_github env data
            = (Return (mkResult "error"
                         ("Deployment failed: Command '['git', 'init']' returned non-zero exit status "
                            ++ Z_to_string (returncode p) ++ ".")
                         (Some l) None None),
               mkState l (trace st ++ [Exec cmd_rev_parse; Exec cmd_init])%list)).
  { rewrite E, guarded_publish, guarded_bind.
    unfold ensure_repository. unfold bind at 1. rewrite subprocess_run_result, Hg.
    simpl. rewrite Hgrc. simpl.
    unfold bind at 1. rewrite subprocess_run_result, Hp. simpl. rewrite Hprc'. simpl.
    eexists. rewrite <- app_assoc. reflexivity. }
  destruct R as [l R]. rewrite R. unfold response_of, trace_of. simpl.
  split; [exists l; reflexivity | exists (trace st); auto].
Qed.

Lemma init_failure_is_error_witness :
  exists l,
    response_of (deploy_to_github env_init_fails (request hello true))
    = Some (mkResult "error"
              "Deployment failed: Command '['git', 'init']' returned non-zero exit status 1."
              (Some l) None None).
Proof.
  assert (HIn : In (Exec cmd_rev_parse)
                  (trace_of (deploy_to_github env_init_fails (request hello true))))
    by (vm_compute; tauto).
  destruct (init_failure_is_error env_init_fails (request hello true)
              (mkCompleted 128 ""
                 "fatal: not a git repository (or any of the parent directories): .git")
              (mkCompleted 1 "" "") HIn eq_refl) as [[l E] _];
    [discriminate | reflexivity | reflexivity |].
  exists l. exact E.
Defined.

(** ** What the Publish operation touches *)

Lemma materialize_site_actions (env : DeployEnv) (src : string) :
  appends (site_action src) (materialize env src).
Proof.
  unfold materialize.
  repeat match goal with
    | |- appends _ (bind _ _) => apply appends_bind; [| intros ?]
    | |- appends _ (file_op _ _) =>
        apply appends_file_op; unfold site_action, code_file, index_file,
          readme_file, path_join, GITHUB_PAGES_DIR; simpl; tauto
    | |- appends _ (subprocess_run _ _ _ _) =>
        apply appends_subprocess_run; simpl; left; reflexivity
    | |- appends _ (if ?b then _ else _) => destruct b
    | |- appends _ _ => solve [auto 8 with frames]
    end.
Qed.

(** X13: whatever the host answers, the Publish operation touches the
    filesystem only to create [docs] and to write [docs/generated_code.py]
    (with the code of the request), [docs/index.html] and [docs/README.md]
    (with the fixed text); the only processes it starts are the generated
    code and the six git commands; it removes nothing. *)
Theorem deploy_effects_confined (env : DeployEnv) (data : option RequestData) :
  Forall (site_action (request_code data)) (trace_of (deploy_to_github env data)).
Proof.
  destruct (request_code data) as [|c s] eqn:Hc.
  - unfold deploy_to_github, trace_of. rewrite Hc. simpl. constructor.
  - assert (Hne : request_code data <> "") by (rewrite Hc; discriminate).
    unfold trace_of. rewrite (deploy_to_github_nonempty _ _ Hne), Hc.
    assert (A : appends (site_action (String c s))
                  (guarded (deploy_body env (String c s) (request_auto_push data)))).
    { apply guarded_appends. unfold deploy_body.
      apply appends_bind; [apply materialize_site_actions | intros _].
      destruct (request_auto_push data); [| frame].
      eapply appends_weaken; [| apply publish_appends].
      intros a. unfold runs. rewrite in_map_iff. intros [cmd [<- H]].
      simpl. now right. }
    destruct (A initial_state) as [acts [E F]]. rewrite E. exact F.
Qed.

(** X14: the exit status of the generated code plays no part in the
    Publish operation: two hosts that differ only in that status give the
    same response, the same log and the same trace. *)
Theorem publish_ignores_exit_status (env : DeployEnv) (data : option RequestData)
    (rc rc' : Z) (out err : string) :
  deploy_to_github (with_run (exited rc out err) env) data
  = deploy_to_github (with_run (exited rc' out err) env) data.
Proof.
  unfold deploy_to_github. destruct (PyStr.truthy (request_code data)); [| reflexivity].
  simpl negb. cbv iota. unfold guarded, try_except, deploy_body.
  assert (E : forall st,
            materialize (with_run (exited rc out err) env) (request_code data) st
            = materialize (with_run (exited rc' out err) env) (request_code data) st).
  { intros st. unfold materialize, subprocess_run, with_run, exited, chosen_output.
    reflexivity. }
  unfold bind at 1 3. rewrite E. reflexivity.
Qed.

(** ** The run of the generated code *)

(** X15: when the generated code does not end within its 10 seconds during
    a Publish, the run ends with the status [error] and the message
    [Deployment timed out]; the source file has been written, the entry
    point and the README have not, and no git command is run. *)
Theorem code_timeout_is_error (env : DeployEnv) (data : option RequestData) :
  request_code data <> "" ->
  mkdir_docs env = Written ->
  write_code env = Written ->
  run_code env = Expired ->
  deploy_to_github env data
  = (Return (mkResult "error" "Deployment timed out"
               (Some [ "✅ Created /docs directory"; "✅ Saved Python code";
                       "❌ Operation timed out" ])
               None None),
     mkState [ "✅ Created /docs directory"; "✅ Saved Python code";
               "❌ Operation timed out" ]
       [ MkDir "docs"; WriteFile "docs/generated_code.py" (request_code data);
         Exec ["python"; "docs/generated_code.py"] ]).
Proof.
  intros Hc H1 H2 H3. rewrite (deploy_to_github_nonempty _ _ Hc).
  unfold deploy_body. rewrite guarded_bind.
  unfold materialize. unfold_handler. rewrite H1, H2, H3. reflexivity.
Qed.

Lemma code_timeout_is_error_witness :
  response_of (deploy_to_github (with_run Expired env_ok) (request hello true))
  = Some (mkResult "error" "Deployment timed out"
            (Some [ "✅ Created /docs directory"; "✅ Saved Python code";
                    "❌ Operation timed out" ])
            None None).
Proof.
  rewrite (code_timeout_is_error (with_run Expired env_ok) (request hello true));
    [reflexivity | discriminate | reflexivity | reflexivity | reflexivity].
Defined.

(** X16: the interpreter is only ever started on the file that was just
    written with the code of the request: a trace that holds the run of the
    generated code starts with the creation of [docs], the write of the
    code to [docs/generated_code.py], which the host accepted, and the run
    of that very file. *)
Theorem python_runs_written_code (env : DeployEnv) (data : option RequestData) :
  In (Exec cmd_python) (trace_of (deploy_to_github env data)) ->
  mkdir_docs env = Written /\
  write_code env = Written /\
  exists rest,
    trace_of (deploy_to_github env data)
    = ([ MkDir "docs"; WriteFile "docs/generated_code.py" (request_code data);
         Exec ["python"; "docs/generated_code.py"] ] ++ rest)%list.
Proof.
  intros HIn. pose proof (performed_nonempty _ _ _ HIn) as Hc.
  destruct (deploy_trace_split env data Hc) as [acts [E F]].
  rewrite E in *. clear E.
  assert (HM : In (Exec cmd_python)
                 (trace (snd (materialize env (request_code data) initial_state)))).
  { apply in_app_or in HIn. destruct HIn as [H | H]; [exact H|].
    rewrite Forall_forall in F. apply F in H. unfold runs, git_commands in H.
    simpl in H. repeat (destruct H as [H | H]; try discriminate H). destruct H. }
  clear HIn. revert HM. unfold materialize. unfold_handler.
  destruct (mkdir_docs env); simpl;
    [| intros H; repeat (destruct H as [H | H]; try discriminate H); destruct H].
  destruct (write_code env); simpl;
    [| intros H; repeat (destruct H as [H | H]; try discriminate H); destruct H].
  intros _. split; [reflexivity|]. split; [reflexivity|].
  destruct (run_code env) as [p | | |]; simpl; try (eexists; reflexivity).
  destruct (looks_like_html (chosen_output p)); simpl;
    destruct (write_index env); simpl; try (eexists; reflexivity);
    destruct (write_readme env); simpl; eexists; reflexivity.
Qed.

Lemma python_runs_written_code_witness :
  exists rest,
    trace_of (deploy_to_github env_ok (request hello false))
    = ([ MkDir "docs"; WriteFile "docs/generated_code.py" hello;
         Exec ["python"; "docs/generated_code.py"] ] ++ rest)%list.
Proof.
  assert (HIn : In (Exec cmd_python)
                  (trace_of (deploy_to_github env_ok (request hello false))))
    by (vm_compute; tauto).
  exact (proj2 (proj2 (python_runs_written_code env_ok (request hello false) HIn))).
Defined.

(** ** The Execute operation, case by case *)

(** X17: without code (the body is a falsy JSON value, the JSON object has
    no [code] key, or the code is the empty text) the Execute operation
    answers with its fixed error and touches nothing: no file is written
    and no process is started. *)
Theorem execute_without_code (env : ExecEnv) (data : option RequestData) :
  request_code data = "" ->
  deploy_code env data
  = (Return "Error: No code provided for execution.", initial_state).
Proof. intros H. unfold deploy_code. rewrite H. reflexivity. Qed.

Lemma execute_without_code_witness :
  deploy_code exec_ok (Some (mkRequest None (Some true)))
  = (Return "Error: No code provided for execution.", initial_state).
Proof.
  apply (execute_without_code exec_ok (Some (mkRequest None (Some true)))).
  reflexivity.
Defined.

(** X18: once the source file is saved, the output of the Execute
    operation is decided by the answer of the host to the run.  A run that
    exits with 0 gives the success prefix followed by the standard output;
    a run that exits with another status gives the runtime-error prefix
    followed by the standard error, and the standard output is lost; a
    timeout and a missing interpreter each give a fixed text, in which the
    message of the host does not appear; any other failure gives the
    unexpected-error prefix followed by its message. *)
Theorem execute_outcome_table (env : ExecEnv) (data : option RequestData) :
  request_code data <> "" ->
  save_generated env = Written ->
  response_of (deploy_code env data)
  = Some match run_generated env with
         | Completed p =>
             if (returncode p =? 0)%Z
             then "Execution Successful:" ++ nl ++ nl ++ stdout p
             else "Execution Failed (Runtime Error):" ++ nl ++ nl ++ stderr p
         | Expired => "Execution Failed (Timeout): The code took too long to run."
         | NotFound _ => "Execution Failed: Python interpreter not found."
         | LaunchError msg => "An unexpected error occurred during execution: " ++ msg
         end.
Proof.
  intros Hc Hs. unfold_handler. rewrite (truthy_nonempty _ Hc), Hs. simpl.
  destruct (run_generated env) as [p | | |]; simpl; try reflexivity.
  destruct (returncode p =? 0)%Z; reflexivity.
Qed.

Lemma execute_outcome_table_witness :
  response_of (deploy_code
                 {| save_generated := Written;
                    run_generated := exited 1 "partial output" "Traceback: ZeroDivisionError" |}
                 (request "print('partial output'); 1/0" true))
  = Some ("Execution Failed (Runtime Error):" ++ nl ++ nl ++ "Traceback: ZeroDivisionError").
Proof.
  rewrite (execute_outcome_table
             {| save_generated := Written;
                run_generated := exited 1 "partial output" "Traceback: ZeroDivisionError" |}
             (request "print('partial output'); 1/0" true));
    [reflexivity | discriminate | reflexivity].
Defined.
